(** * mautrix_appservice.intent_api: a shallow embedding

    The module wraps a Matrix HTTP client.  [HTTPAPI] is the application
    service's connection, [ChildHTTPAPI] a per-user connection derived from
    it, and [IntentAPI] the per-user facade that registers the user and joins
    rooms before it acts.

    Python objects that are shared and mutated (the two connection classes)
    live in a heap of objects addressed by location; the methods of
    [IntentAPI] run in a state-and-exception monad whose state is the intent
    object together with the list of calls made on the wrapped client.  The
    wrapped client itself (matrix_client.api.MatrixHttpApi) and json.loads are
    outside the module: they are parameters of the development.

    [HTTPAPI._send] and [HTTPAPI.create_room] are modelled up to the call of
    MatrixHttpApi._send they end with.  Left out: [IntentAPI.create_room],
    which registers and then passes its arguments on to the client. *)

From Stdlib Require Import ZArith Lia.
From Stdlib Require Import Ascii.
From Stdlib Require String.
From stdpp Require Import base option list strings gmap fin_maps.

(** ** Python values and exceptions *)

(** An object reference. *)
Definition loc := nat.

(** What json.loads returns, and what is passed as an event body. *)
#[local] Unset Elimination Schemes.
Inductive json :=
  | JNull
  | JBool (b : bool)
  | JInt (z : Z)
  | JFloat (literal : string)
  | JStr (s : string)
  | JList (l : list json)
  | JDict (d : gmap string json).
#[local] Set Elimination Schemes.

(** [v == s] for a Python value [v] and a str [s]. *)
Definition json_eq_str (v : json) (s : string) : bool :=
  match v with
  | JStr s' => String.eqb s' s
  | _ => false
  end.

(** matrix_client.errors.MatrixRequestError: the status code and the text of
    the response. *)
Record MatrixRequestError := { code : Z; content : string }.

(** The exceptions that leave a method of this module. *)
Inductive exn :=
  | ValueError (message : string)
  | AttributeError (message : string)
  | TypeError (message : string)
  | IntentError (message : string) (source : MatrixRequestError)
  | RequestError (e : MatrixRequestError).

Inductive outcome (A : Type) :=
  | Return (a : A)
  | Raise (e : exn).
Arguments Return {A} a.
Arguments Raise {A} e.

(** ** The regular expression of [IntentAPI.mxid_regex]

    The fragment of Python's re that the pattern uses: literal characters and
    the group [(.+)].  The matcher backtracks as re does: a greedy [.+] first
    takes as many characters as it can and gives them back one at a time.
    A str is modelled by its bytes; the at sign, the colon and the newline
    are single bytes that occur in no longer character, so the pattern
    matches the bytes where it matches the characters. *)
Module Regex.

Inductive item :=
  | Lit (c : ascii)
  | DotPlusGroup.

(** [.] matches any character except a newline (no DOTALL flag). *)
Definition dot (c : ascii) : bool := negb (Ascii.eqb c "010"%char).

(** The group [(.+)] followed by the rest of the pattern, [rest] giving the
    groups of the rest: the longest run of characters after which the rest
    matches. *)
Fixpoint dot_plus (rest : string -> option (list string)) (s : string)
    : option (string * list string) :=
  match s with
  | EmptyString => None
  | String c s' =>
      if dot c then
        match dot_plus rest s' with
        | Some (g, gs) => Some (String c g, gs)
        | None =>
            match rest s' with
            | Some gs => Some (String c EmptyString, gs)
            | None => None
            end
        end
      else None
  end.

(** The groups captured when the pattern matches at the start of [s]. *)
Fixpoint match_here (p : list item) (s : string) : option (list string) :=
  match p with
  | [] => Some []
  | Lit c :: p' =>
      match s with
      | String c' s' => if Ascii.eqb c c' then match_here p' s' else None
      | EmptyString => None
      end
  | DotPlusGroup :: p' =>
      match dot_plus (match_here p') s with
      | Some (g, gs) => Some (g :: gs)
      | None => None
      end
  end.

(** re.search: the match at the leftmost position that has one. *)
Fixpoint search (p : list item) (s : string) : option (list string) :=
  match match_here p s with
  | Some gs => Some gs
  | None =>
      match s with
      | EmptyString => None
      | String _ s' => search p s'
      end
  end.

(** [m.group(1)] *)
Definition group1 (gs : list string) : string := nth 0 gs EmptyString.

End Regex.

(** [re.compile("@(.+):(.+)")] *)
Definition mxid_regex : list Regex.item :=
  [Regex.Lit "@"; Regex.DotPlusGroup; Regex.Lit ":"; Regex.DotPlusGroup].

(** ** The wrapped client

    The methods of matrix_client's MatrixHttpApi that the module calls, each
    with the connection object it is called on.  A call either returns the
    decoded response or raises MatrixRequestError. *)
Module Client.

Inductive call :=
  | register (client : loc) (content : gmap string string)
  | join_room (client : loc) (room_id : string)
  | invite_user (client : loc) (room_id user_id : string)
  | set_display_name (client : loc) (user_id name : string)
  | send_message_event (client : loc) (room_id type : string) (body : json)
      (txn_id timestamp : option Z)
  | send_state_event (client : loc) (room_id type : string) (body : json)
      (state_key : string) (timestamp : option Z).

End Client.
Abbreviation call := Client.call.

(** The homeserver behind the client: its answer to a call may depend on
    every call made before.  The properties below hold for every such
    function, hence for every sequence of answers a server can give. *)
Definition transport := list call -> call -> MatrixRequestError + json.

(** ** IntentAPI *)
Module IntentAPI.

Record t := mk {
  client : loc;
  bot : option loc;
  mxid : string;
  log : option loc;
  localpart : string;
  memberships : gmap string string;
  power_levels : gmap string json;
  registered : bool
}.

(** [__init__] *)
Definition init (mxid : string) (client : loc) (bot : option loc) (log : option loc)
  : outcome t :=
  match Regex.search mxid_regex mxid with
  | None => Raise (ValueError "invalid MXID")
  | Some results =>
      Return {| client := client; bot := bot; mxid := mxid; log := log;
                localpart := Regex.group1 results;
                memberships := empty; power_levels := empty;
                registered := false |}
  end.

Definition set_registered (b : bool) (i : t) : t :=
  {| client := client i; bot := bot i; mxid := mxid i; log := log i;
     localpart := localpart i; memberships := memberships i;
     power_levels := power_levels i; registered := b |}.

Definition set_membership (room_id state : string) (i : t) : t :=
  {| client := client i; bot := bot i; mxid := mxid i; log := log i;
     localpart := localpart i; memberships := <[room_id := state]> (memberships i);
     power_levels := power_levels i; registered := registered i |}.

End IntentAPI.

(** ** The monad of an intent's methods

    The state is the intent object [self] and the calls made so far; an
    exception keeps the state reached when it was raised. *)
Record state := { self : IntentAPI.t; calls : list call }.

Definition M (A : Type) : Type := state -> outcome A * state.

Definition ret {A} (a : A) : M A := fun s => (Return a, s).
Definition raise {A} (e : exn) : M A := fun s => (Raise e, s).
Definition bind {A B} (m : M A) (k : A -> M B) : M B :=
  fun s =>
    match m s with
    | (Return a, s') => k a s'
    | (Raise e, s') => (Raise e, s')
    end.

Notation "'do' x <- m ; k" := (bind m (fun x => k))
  (at level 10, x name, m at level 100, k at level 200).

Definition get_self : M IntentAPI.t := fun s => (Return (self s), s).
Definition modify_self (f : IntentAPI.t -> IntentAPI.t) : M unit :=
  fun s => (Return tt, {| self := f (self s); calls := calls s |}).

(** [try: m except MatrixRequestError as e: handler e] *)
Definition try_except {A} (m : M A) (handler : MatrixRequestError -> M A) : M A :=
  fun s =>
    match m s with
    | (Raise (RequestError e), s') => handler e s'
    | r => r
    end.

(** [self.memberships.get(room_id, "")] *)
Definition memberships_get (i : IntentAPI.t) (room_id : string) : string :=
  default EmptyString (IntentAPI.memberships i !! room_id).

(** The truth value of [self.bot]: None is falsy, a connection object is
    truthy. *)
Definition truthy (o : option loc) : bool :=
  match o with
  | Some _ => true
  | None => false
  end.

Section Methods.

(** json.loads, [None] when it raises. *)
Variable json_loads : string -> option json.
Variable respond : transport.

(** A method call on the wrapped client: the call is recorded, and the
    server's answer either returns or raises MatrixRequestError. *)
Definition request (c : call) : M json :=
  fun s =>
    let s' := {| self := self s; calls := calls s ++ [c] |} in
    match respond (calls s) c with
    | inl e => (Raise (RequestError e), s')
    | inr v => (Return v, s')
    end.

(** [matrix_error_code]: the bare except catches the decoding error of
    json.loads, the KeyError of a dict without the key and the TypeError
    of subscripting anything but a dict with a str. *)
Definition matrix_error_code (err : MatrixRequestError) : json :=
  match json_loads (content err) with
  | Some (JDict data) =>
      match data !! "errcode" with
      | Some v => v
      | None => JStr (content err)
      end
  | _ => JStr (content err)
  end.

Definition _ensure_registered : M unit :=
  do self <- get_self;
  if IntentAPI.registered self then ret tt
  else
    do _ <- try_except
      (do _ <- request (Client.register (IntentAPI.client self)
                          {[ "username" := IntentAPI.localpart self ]});
       ret tt)
      (fun e =>
         if negb (json_eq_str (matrix_error_code e) "M_USER_IN_USE") then
           raise (IntentError ("Failed to register " +:+ IntentAPI.mxid self) e)
         else ret tt);
    modify_self (IntentAPI.set_registered true).

Definition failed_to_join (room_id : string) (self : IntentAPI.t) : string :=
  "Failed to join room " +:+ room_id +:+ " as " +:+ IntentAPI.mxid self.

(** [self.bot.invite_user]: the attribute lookup on None raises. *)
Definition bot_invite_user (self : IntentAPI.t) (room_id user_id : string) : M json :=
  match IntentAPI.bot self with
  | Some b => request (Client.invite_user b room_id user_id)
  | None => raise (AttributeError "'NoneType' object has no attribute 'invite_user'")
  end.

Definition _ensure_joined (room_id : string) (ignore_cache : bool) : M unit :=
  do self <- get_self;
  if ignore_cache && String.eqb (memberships_get self room_id) "join" then ret tt
  else
    do _ <- _ensure_registered;
    try_except
      (do _ <- request (Client.join_room (IntentAPI.client self) room_id);
       modify_self (IntentAPI.set_membership room_id "join"))
      (fun e =>
         if negb (json_eq_str (matrix_error_code e) "M_FORBIDDEN")
            && negb (truthy (IntentAPI.bot self))
         then raise (IntentError (failed_to_join room_id self) e)
         else
           try_except
             (do _ <- bot_invite_user self room_id (IntentAPI.mxid self);
              do _ <- request (Client.join_room (IntentAPI.client self) room_id);
              modify_self (IntentAPI.set_membership room_id "join"))
             (fun e2 => raise (IntentError (failed_to_join room_id self) e2))).

(** [_ensure_has_power_level_for]: pass *)
Definition _ensure_has_power_level_for (room_id event_type : string) : M unit :=
  ret tt.

Definition join_room (room_id : string) : M unit :=
  _ensure_joined room_id true.

Definition send_event (room_id type : string) (body : json)
    (txn_id timestamp : option Z) : M json :=
  do self <- get_self;
  do _ <- _ensure_joined room_id false;
  do _ <- _ensure_has_power_level_for room_id type;
  request (Client.send_message_event (IntentAPI.client self) room_id type body txn_id timestamp).

Definition send_state_event (room_id type : string) (body : json)
    (state_key : string) (timestamp : option Z) : M json :=
  do self <- get_self;
  do _ <- _ensure_joined room_id false;
  do _ <- _ensure_has_power_level_for room_id type;
  request (Client.send_state_event (IntentAPI.client self) room_id type body state_key timestamp).

Definition send_message (room_id : string) (body : json) : M json :=
  send_event room_id "m.room.message" body None None.

(** [unformatted_text or text]: None and the empty str are falsy. *)
Definition or_text (unformatted_text : option string) (text : string) : string :=
  match unformatted_text with
  | Some (String c u) => String c u
  | _ => text
  end.

Definition send_text (room_id text : string) (html : bool)
    (unformatted_text : option string) (notice : bool) : M json :=
  if html then
    send_message room_id (JDict
      (<[ "formatted_body" := JStr text ]>
       (<[ "format" := JStr "org.matrix.custom.html" ]>
        (<[ "msgtype" := JStr (if notice then "m.notice" else "m.text") ]>
         (<[ "body" := JStr (or_text unformatted_text text) ]> empty)))))
  else
    send_message room_id (JDict
      (<[ "msgtype" := JStr (if notice then "m.notice" else "m.text") ]>
       (<[ "body" := JStr text ]> empty))).

Definition set_display_name (name : string) : M json :=
  do self <- get_self;
  do _ <- _ensure_registered;
  request (Client.set_display_name (IntentAPI.client self) (IntentAPI.mxid self) name).

End Methods.

(** ** The connection objects

    [HTTPAPI] and [ChildHTTPAPI] objects are shared: a child keeps a
    reference to its parent, and the parent's [children] dict keeps
    references to its children.  The heap is the list of the objects
    allocated so far, an object's location its index; a lookup outside the
    heap (no Python reference is like that) makes a method answer [None]. *)
Module HTTPAPI.

Record t := mk {
  base_url : string;
  token : option string;
  identity : option string;
  txn_id : Z;
  bot_mxid : option string;
  log : option loc;
  validate_cert : bool;
  children : gmap string loc
}.

Definition set_txn_id (value : Z) (r : t) : t :=
  {| base_url := base_url r; token := token r; identity := identity r;
     txn_id := value; bot_mxid := bot_mxid r; log := log r;
     validate_cert := validate_cert r; children := children r |}.

Definition set_child (user : string) (child : loc) (r : t) : t :=
  {| base_url := base_url r; token := token r; identity := identity r;
     txn_id := txn_id r; bot_mxid := bot_mxid r; log := log r;
     validate_cert := validate_cert r;
     children := <[user := child]> (children r) |}.

End HTTPAPI.

Module ChildHTTPAPI.

(** The attributes [__init__] sets; [txn_id] is a property, not an
    attribute. *)
Record t := mk {
  identity : string;
  token : option string;
  base_url : string;
  validate_cert : bool;
  log : option loc;
  parent : loc
}.

End ChildHTTPAPI.

Inductive object :=
  | Root (r : HTTPAPI.t)
  | Child (c : ChildHTTPAPI.t).

Abbreviation heap := (list object).

(** Attributes that both classes have. *)
Definition obj_token (o : object) : option string :=
  match o with
  | Root r => HTTPAPI.token r
  | Child c => ChildHTTPAPI.token c
  end.

Definition obj_base_url (o : object) : string :=
  match o with
  | Root r => HTTPAPI.base_url r
  | Child c => ChildHTTPAPI.base_url c
  end.

Definition obj_validate_cert (o : object) : bool :=
  match o with
  | Root r => HTTPAPI.validate_cert r
  | Child c => ChildHTTPAPI.validate_cert c
  end.

Definition obj_log (o : object) : option loc :=
  match o with
  | Root r => HTTPAPI.log r
  | Child c => ChildHTTPAPI.log c
  end.

(** [HTTPAPI.__init__]: the new object and its location. *)
Definition HTTPAPI_init (base_url : string) (bot_mxid token identity : option string)
    (log : option loc) (h : heap) : heap * loc :=
  (h ++ [Root {| HTTPAPI.base_url := base_url; HTTPAPI.token := token;
                 HTTPAPI.identity := identity; HTTPAPI.txn_id := 0;
                 HTTPAPI.bot_mxid := bot_mxid; HTTPAPI.log := log;
                 HTTPAPI.validate_cert := true; HTTPAPI.children := empty |}],
   length h).

(** [ChildHTTPAPI.__init__] *)
Definition ChildHTTPAPI_init (user : string) (parent : loc) (h : heap)
    : option (heap * loc) :=
  match h !! parent with
  | Some p =>
      Some (h ++ [Child {| ChildHTTPAPI.identity := user;
                           ChildHTTPAPI.token := obj_token p;
                           ChildHTTPAPI.base_url := obj_base_url p;
                           ChildHTTPAPI.validate_cert := obj_validate_cert p;
                           ChildHTTPAPI.log := obj_log p;
                           ChildHTTPAPI.parent := parent |}],
            length h)
  | None => None
  end.

(** [HTTPAPI.user]: a ChildHTTPAPI inherits the method but has no
    [children] attribute. *)
Definition HTTPAPI_user (self : loc) (user : string) (h : heap)
    : option (outcome loc * heap) :=
  match h !! self with
  | Some (Root r) =>
      match HTTPAPI.children r !! user with
      | Some child => Some (Return child, h)
      | None =>
          match ChildHTTPAPI_init user self h with
          | Some (h', child) =>
              Some (Return child, <[self := Root (HTTPAPI.set_child user child r)]> h')
          | None => None
          end
      end
  | Some (Child _) =>
      Some (Raise (AttributeError "'ChildHTTPAPI' object has no attribute 'children'"), h)
  | None => None
  end.

(** Reading [o.txn_id] on the object at [l]: an attribute of an HTTPAPI, the
    property of a ChildHTTPAPI, which reads its parent's. *)
Fixpoint read_txn_id (fuel : nat) (h : heap) (l : loc) : option Z :=
  match fuel with
  | 0 => None
  | S fuel' =>
      match h !! l with
      | Some (Root r) => Some (HTTPAPI.txn_id r)
      | Some (Child c) => read_txn_id fuel' h (ChildHTTPAPI.parent c)
      | None => None
      end
  end.

(** Writing [o.txn_id = value]: the setter of a ChildHTTPAPI writes its
    parent's. *)
Fixpoint write_txn_id (fuel : nat) (h : heap) (l : loc) (value : Z) : option heap :=
  match fuel with
  | 0 => None
  | S fuel' =>
      match h !! l with
      | Some (Root r) => Some (<[l := Root (HTTPAPI.set_txn_id value r)]> h)
      | Some (Child c) => write_txn_id fuel' h (ChildHTTPAPI.parent c) value
      | None => None
      end
  end.

(** The [txn_id] property of the ChildHTTPAPI at [l].  A parent is allocated
    before its child, so a chain of parents is shorter than the heap. *)
Definition ChildHTTPAPI_txn_id (h : heap) (l : loc) : option Z :=
  match h !! l with
  | Some (Child c) => read_txn_id (length h) h (ChildHTTPAPI.parent c)
  | _ => None
  end.

Definition ChildHTTPAPI_txn_id_setter (h : heap) (l : loc) (value : Z) : option heap :=
  match h !! l with
  | Some (Child c) => write_txn_id (length h) h (ChildHTTPAPI.parent c) value
  | _ => None
  end.

(** The HTTPAPI at the end of the chain of parents of [l]. *)
Fixpoint root_of (fuel : nat) (h : heap) (l : loc) : option loc :=
  match fuel with
  | 0 => None
  | S fuel' =>
      match h !! l with
      | Some (Root _) => Some l
      | Some (Child c) => root_of fuel' h (ChildHTTPAPI.parent c)
      | None => None
      end
  end.

(** [HTTPAPI.intent] *)
Definition HTTPAPI_intent (self : loc) (user : string) (h : heap)
    : option (outcome IntentAPI.t * heap) :=
  match HTTPAPI_user self user h with
  | Some (Return child, h') =>
      match h' !! self with
      | Some o => Some (IntentAPI.init user child (Some self) (obj_log o), h')
      | None => None
      end
  | Some (Raise e, h') => Some (Raise e, h')
  | None => None
  end.

(** [HTTPAPI.bot_intent]: re.search on None raises TypeError.  The text of
    that exception is the interpreter's, not the module's: it is the
    parameter [type_error]. *)
Definition HTTPAPI_bot_intent (type_error : string) (self : loc) (h : heap)
    : option (outcome IntentAPI.t) :=
  match h !! self with
  | Some (Root r) =>
      match HTTPAPI.bot_mxid r with
      | Some mxid => Some (IntentAPI.init mxid self None (HTTPAPI.log r))
      | None => Some (Raise (TypeError type_error))
      end
  | Some (Child _) =>
      Some (Raise (AttributeError "'ChildHTTPAPI' object has no attribute 'bot_mxid'"))
  | None => None
  end.

(** [IntentAPI.user] *)
Definition IntentAPI_user (self : IntentAPI.t) (user : string) (h : heap)
    : option (outcome IntentAPI.t * heap) :=
  if negb (truthy (IntentAPI.bot self)) then
    HTTPAPI_intent (IntentAPI.client self) user h
  else
    Some (Raise (ValueError "IntentAPI#user() is only available for base intent objects."), h).

(** A heap built by the constructors: a parent is older than its child, and
    the children dict of an HTTPAPI maps a user to a child of that HTTPAPI
    made for that user. *)
Definition heap_wf (h : heap) : Prop :=
  (forall l c, h !! l = Some (Child c) ->
     ChildHTTPAPI.parent c < l) /\
  (forall l r user k, h !! l = Some (Root r) ->
     HTTPAPI.children r !! user = Some k ->
     exists c, h !! k = Some (Child c) /\
               ChildHTTPAPI.parent c = l /\ ChildHTTPAPI.identity c = user).

(** ** Sample environments

    Concrete servers and a decoder for the response texts they send, used
    to run the methods on examples. *)

Definition quote : string := String (ascii_of_nat 34) EmptyString.

(** The response text of a Matrix error: a JSON object with the key
    errcode. *)
Definition error_text (errcode : string) : string :=
  "{" +:+ quote +:+ "errcode" +:+ quote +:+ ": " +:+ quote +:+ errcode +:+ quote +:+ "}".

Definition sample_codes : list string :=
  ["M_FORBIDDEN"; "M_USER_IN_USE"; "M_UNKNOWN"].

(** json.loads on the texts [error_text c] of the sample codes; any other
    text is taken not to be JSON. *)
Definition json_loads_sample (s : string) : option json :=
  match List.find (fun c => String.eqb s (error_text c)) sample_codes with
  | Some c => Some (JDict {[ "errcode" := JStr c ]})
  | None => None
  end.

Definition matrix_error (status : Z) (errcode : string) : MatrixRequestError :=
  {| code := status; content := error_text errcode |}.

Definition is_invite (room_id : string) (c : call) : bool :=
  match c with
  | Client.invite_user _ r _ => String.eqb r room_id
  | _ => false
  end.

(** Every call succeeds. *)
Definition server_open : transport :=
  fun _ _ => inr (JDict empty).

(** An invite-only room: a join is forbidden until somebody was invited. *)
Definition server_invite_only : transport :=
  fun history c =>
    match c with
    | Client.join_room _ room_id =>
        if existsb (is_invite room_id) history then inr (JDict empty)
        else inl (matrix_error 403 "M_FORBIDDEN")
    | _ => inr (JDict empty)
    end.

(** A server on which every join is forbidden and invites go through. *)
Definition server_closed : transport :=
  fun _ c =>
    match c with
    | Client.join_room _ _ => inl (matrix_error 403 "M_FORBIDDEN")
    | _ => inr (JDict empty)
    end.

(** A server on which joins fail for a reason other than permissions. *)
Definition server_broken_join : transport :=
  fun _ c =>
    match c with
    | Client.join_room _ _ => inl (matrix_error 500 "M_UNKNOWN")
    | _ => inr (JDict empty)
    end.

(** The user is already registered on the server. *)
Definition server_user_in_use : transport :=
  fun _ c =>
    match c with
    | Client.register _ _ => inl (matrix_error 400 "M_USER_IN_USE")
    | _ => inr (JDict empty)
    end.

(** Registration fails for another reason. *)
Definition server_register_fails : transport :=
  fun _ c =>
    match c with
    | Client.register _ _ => inl (matrix_error 500 "M_UNKNOWN")
    | _ => inr (JDict empty)
    end.

(** The intent of @alice:example.org as [HTTPAPI.intent] makes it, with the
    HTTPAPI at location 0 and alice's ChildHTTPAPI at location 1. *)
Definition alice : IntentAPI.t :=
  {| IntentAPI.client := 1; IntentAPI.bot := Some 0;
     IntentAPI.mxid := "@alice:example.org"; IntentAPI.log := None;
     IntentAPI.localpart := "alice"; IntentAPI.memberships := empty;
     IntentAPI.power_levels := empty; IntentAPI.registered := false |}.

(** The bot's own intent, as [HTTPAPI.bot_intent] makes it. *)
Definition bridge_bot : IntentAPI.t :=
  {| IntentAPI.client := 0; IntentAPI.bot := None;
     IntentAPI.mxid := "@bridge:example.org"; IntentAPI.log := None;
     IntentAPI.localpart := "bridge"; IntentAPI.memberships := empty;
     IntentAPI.power_levels := empty; IntentAPI.registered := false |}.

Definition initially (i : IntentAPI.t) : state := {| self := i; calls := [] |}.

Definition heap_after_user (self : loc) (user : string) (h : heap) : heap :=
  match HTTPAPI_user self user h with
  | Some (_, h') => h'
  | None => h
  end.

(** A heap with an HTTPAPI and the contexts of two users. *)
Definition sample_root : heap :=
  fst (HTTPAPI_init "https://matrix.example.org" (Some "@bridge:example.org")
         (Some "secret") None None []).

Definition sample_heap : heap :=
  heap_after_user 0 "@bob:example.org"
    (heap_after_user 0 "@alice:example.org" sample_root).

(** ** The vocabulary of the properties *)


(** The request [_ensure_registered] makes for the intent [i]. *)
Definition registration (i : IntentAPI.t) : call :=
  Client.register (IntentAPI.client i) {[ "username" := IntentAPI.localpart i ]}.

Definition logged (c : call) (s : state) : state :=
  {| self := self s; calls := calls s ++ [c] |}.

Definition marked_registered (s : state) : state :=
  {| self := IntentAPI.set_registered true (self s); calls := calls s |}.

(** The runs of [_ensure_registered] from the state [s]: the flag was set;
    the request went through or was answered with M_USER_IN_USE; the request
    failed with another error. *)
Inductive registered_run (json_loads : string -> option json) (respond : transport)
    (s : state) : outcome unit * state -> Prop :=
  | run_done :
      IntentAPI.registered (self s) = true ->
      registered_run json_loads respond s (Return tt, s)
  | run_accepted :
      IntentAPI.registered (self s) = false ->
      registered_run json_loads respond s
        (Return tt, marked_registered (logged (registration (self s)) s))
  | run_refused e :
      IntentAPI.registered (self s) = false ->
      respond (calls s) (registration (self s)) = inl e ->
      json_eq_str (matrix_error_code json_loads e) "M_USER_IN_USE" = false ->
      registered_run json_loads respond s
        (Raise (IntentError ("Failed to register " +:+ IntentAPI.mxid (self s)) e),
         logged (registration (self s)) s).

(** The guard of [_ensure_joined]. *)
Definition skips (i : IntentAPI.t) (room_id : string) (ignore_cache : bool) : bool :=
  ignore_cache && String.eqb (memberships_get i room_id) "join".

Definition joined (room_id : string) (s : state) : state :=
  {| self := IntentAPI.set_membership room_id "join" (self s); calls := calls s |}.

Definition msgtype (notice : bool) : string :=
  if notice then "m.notice" else "m.text".

(** [unformatted_text] when it is given and not empty, [text] otherwise. *)
Definition fallback_text (unformatted_text : option string) (text : string) : string :=
  match unformatted_text with
  | Some u => if decide (u = EmptyString) then text else u
  | None => text
  end.

Fixpoint all_chars (f : ascii -> bool) (s : string) : bool :=
  match s with
  | EmptyString => true
  | String c s' => f c && all_chars f s'
  end.

(** No newline: every character is one that [.] matches. *)
Definition one_line (s : string) : bool := all_chars Regex.dot s.

Definition colon_free (s : string) : bool :=
  all_chars (fun c => negb (Ascii.eqb c ":")) s.

(** The identifiers the claim speaks of: an at sign, a local part, a colon
    and a domain, the two parts not empty and without a newline. *)
Definition two_part (mxid l d : string) : Prop :=
  mxid = "@" +:+ l +:+ ":" +:+ d /\
  l <> EmptyString /\ d <> EmptyString /\
  one_line l = true /\ one_line d = true.

(** The child object [HTTPAPI.user] constructs for [user] on the HTTPAPI [r]
    at [self]. *)
Definition derived (user : string) (self : loc) (r : HTTPAPI.t) : ChildHTTPAPI.t :=
  {| ChildHTTPAPI.identity := user;
     ChildHTTPAPI.token := HTTPAPI.token r;
     ChildHTTPAPI.base_url := HTTPAPI.base_url r;
     ChildHTTPAPI.validate_cert := HTTPAPI.validate_cert r;
     ChildHTTPAPI.log := HTTPAPI.log r;
     ChildHTTPAPI.parent := self |}.

(** [rooted h l rl]: following the parents from [l] ends at the HTTPAPI at
    [rl]. *)
Inductive rooted (h : heap) : loc -> loc -> Prop :=
  | rooted_here l r :
      h !! l = Some (Root r) -> rooted h l l
  | rooted_parent l c rl :
      h !! l = Some (Child c) -> rooted h (ChildHTTPAPI.parent c) rl -> rooted h l rl.

Definition parents_older (h : heap) : Prop :=
  forall l c, h !! l = Some (Child c) -> ChildHTTPAPI.parent c < l.

(** ** Requests of a connection object

    [HTTPAPI._send] ends with a call of MatrixHttpApi._send, which is
    outside the module: the methods below give the arguments of that call,
    or the exception raised before it. *)
Record send_args := {
  send_method : string;
  send_path : string;
  send_content : option json;
  send_query_params : gmap string json;
  send_headers : gmap string string
}.

(** [self.identity] as a Python value. *)
Definition obj_identity (o : object) : json :=
  match o with
  | Root r =>
      match HTTPAPI.identity r with
      | Some i => JStr i
      | None => JNull
      end
  | Child c => JStr (ChildHTTPAPI.identity c)
  end.

(** [HTTPAPI._send]: [self.log.debug] raises when there is no logger. *)
Definition HTTPAPI_send (o : object) (method path : string) (content : option json)
    (query_params : option (gmap string json)) (headers : gmap string string)
    : outcome send_args :=
  let query_params :=
    match query_params with
    | Some q => if decide (q = empty) then empty else q
    | None => empty
    end in
  let query_params := <[ "user_id" := obj_identity o ]> query_params in
  match obj_log o with
  | None => Raise (AttributeError "'NoneType' object has no attribute 'debug'")
  | Some _ =>
      Return {| send_method := method; send_path := path; send_content := content;
                send_query_params := query_params; send_headers := headers |}
  end.

(** A str argument that is given and not empty. *)
Definition given (s : option string) : option string :=
  match s with
  | Some (String c s') => Some (String c s')
  | _ => None
  end.

(** [HTTPAPI.create_room] *)
Definition HTTPAPI_create_room (o : object) (alias : option string) (is_public : bool)
    (name topic : option string) (is_direct : bool) (invitees : list string)
    : outcome send_args :=
  let content : gmap string json :=
    {[ "visibility" := JStr (if is_public then "public" else "private") ]} in
  let content :=
    match given alias with
    | Some a => <[ "room_alias_name" := JStr a ]> content
    | None => content
    end in
  let content :=
    match invitees with
    | [] => content
    | _ :: _ => <[ "invite" := JList (JStr <$> invitees) ]> content
    end in
  let content :=
    match given name with
    | Some n => <[ "name" := JStr n ]> content
    | None => content
    end in
  let content :=
    match given topic with
    | Some t => <[ "topic" := JStr t ]> content
    | None => content
    end in
  let content := <[ "is_direct" := JBool is_direct ]> content in
  HTTPAPI_send o "POST" "/createRoom" (Some (JDict content)) None empty.

(** A heap with two HTTPAPI objects, each with the context of one user. *)
Definition two_servers : heap :=
  heap_after_user 1 "@bob:example.com"
    (heap_after_user 0 "@alice:example.org"
       (fst (HTTPAPI_init "https://matrix.example.com" (Some "@bridge:example.com")
               (Some "other") None None sample_root))).

(** ** Further vocabulary *)

Definition join_call (i : IntentAPI.t) (room_id : string) : call :=
  Client.join_room (IntentAPI.client i) room_id.

Definition invite_call (b : loc) (i : IntentAPI.t) (room_id : string) : call :=
  Client.invite_user b room_id (IntentAPI.mxid i).

(** The requests [_ensure_joined] can make after the registration, in
    order. *)
Definition join_requests (i : IntentAPI.t) (room_id : string) : list call :=
  match IntentAPI.bot i with
  | Some b => [join_call i room_id; invite_call b i room_id; join_call i room_id]
  | None => [join_call i room_id]
  end.

(** The runs of [_ensure_joined] from the state [s], [s1] being the state
    after the registration. *)
Inductive join_run (json_loads : string -> option json) (respond : transport)
    (room_id : string) (ignore_cache : bool) (s : state)
    : outcome unit * state -> Prop :=
  | join_skipped :
      skips (self s) room_id ignore_cache = true ->
      join_run json_loads respond room_id ignore_cache s (Return tt, s)
  | join_unregistered e s1 :
      skips (self s) room_id ignore_cache = false ->
      _ensure_registered json_loads respond s = (Raise e, s1) ->
      join_run json_loads respond room_id ignore_cache s (Raise e, s1)
  | join_first_try s1 :
      skips (self s) room_id ignore_cache = false ->
      _ensure_registered json_loads respond s = (Return tt, s1) ->
      join_run json_loads respond room_id ignore_cache s
        (Return tt, joined room_id (logged (join_call (self s) room_id) s1))
  | join_fatal s1 e :
      skips (self s) room_id ignore_cache = false ->
      _ensure_registered json_loads respond s = (Return tt, s1) ->
      IntentAPI.bot (self s) = None ->
      json_eq_str (matrix_error_code json_loads e) "M_FORBIDDEN" = false ->
      join_run json_loads respond room_id ignore_cache s
        (Raise (IntentError (failed_to_join room_id (self s)) e),
         logged (join_call (self s) room_id) s1)
  | join_no_bot s1 :
      skips (self s) room_id ignore_cache = false ->
      _ensure_registered json_loads respond s = (Return tt, s1) ->
      IntentAPI.bot (self s) = None ->
      join_run json_loads respond room_id ignore_cache s
        (Raise (AttributeError "'NoneType' object has no attribute 'invite_user'"),
         logged (join_call (self s) room_id) s1)
  | join_invite_failed s1 b e2 :
      skips (self s) room_id ignore_cache = false ->
      _ensure_registered json_loads respond s = (Return tt, s1) ->
      IntentAPI.bot (self s) = Some b ->
      join_run json_loads respond room_id ignore_cache s
        (Raise (IntentError (failed_to_join room_id (self s)) e2),
         logged (invite_call b (self s) room_id) (logged (join_call (self s) room_id) s1))
  | join_retry_failed s1 b e3 :
      skips (self s) room_id ignore_cache = false ->
      _ensure_registered json_loads respond s = (Return tt, s1) ->
      IntentAPI.bot (self s) = Some b ->
      join_run json_loads respond room_id ignore_cache s
        (Raise (IntentError (failed_to_join room_id (self s)) e3),
         logged (join_call (self s) room_id)
           (logged (invite_call b (self s) room_id) (logged (join_call (self s) room_id) s1)))
  | join_retried s1 b :
      skips (self s) room_id ignore_cache = false ->
      _ensure_registered json_loads respond s = (Return tt, s1) ->
      IntentAPI.bot (self s) = Some b ->
      join_run json_loads respond room_id ignore_cache s
        (Return tt,
         joined room_id
           (logged (join_call (self s) room_id)
              (logged (invite_call b (self s) room_id)
                 (logged (join_call (self s) room_id) s1)))).

(** What no method changes in an intent: everything but the registered
    flag and the memberships. *)
Definition same_intent (i i' : IntentAPI.t) : Prop :=
  IntentAPI.client i' = IntentAPI.client i /\
  IntentAPI.bot i' = IntentAPI.bot i /\
  IntentAPI.mxid i' = IntentAPI.mxid i /\
  IntentAPI.log i' = IntentAPI.log i /\
  IntentAPI.localpart i' = IntentAPI.localpart i /\
  IntentAPI.power_levels i' = IntentAPI.power_levels i.

(** The caches only fill up: the flag is not reset, and the memberships
    change at most for [room_id], to "join". *)
Definition caches_grow (room_id : string) (i i' : IntentAPI.t) : Prop :=
  (IntentAPI.registered i = true -> IntentAPI.registered i' = true) /\
  (forall r, r <> room_id ->
     IntentAPI.memberships i' !! r = IntentAPI.memberships i !! r) /\
  (IntentAPI.memberships i' !! room_id = IntentAPI.memberships i !! room_id \/
   IntentAPI.memberships i' !! room_id = Some "join").

(** The attributes of an HTTPAPI other than its children dict. *)
Definition same_settings (r r' : HTTPAPI.t) : Prop :=
  HTTPAPI.base_url r' = HTTPAPI.base_url r /\
  HTTPAPI.token r' = HTTPAPI.token r /\
  HTTPAPI.identity r' = HTTPAPI.identity r /\
  HTTPAPI.txn_id r' = HTTPAPI.txn_id r /\
  HTTPAPI.bot_mxid r' = HTTPAPI.bot_mxid r /\
  HTTPAPI.log r' = HTTPAPI.log r /\
  HTTPAPI.validate_cert r' = HTTPAPI.validate_cert r.

(** The entry of the request body for an optional str argument: there when
    the argument is given and not empty. *)
Definition present (s : option string) : option json :=
  match s with
  | Some s => if decide (s = EmptyString) then None else Some (JStr s)
  | None => None
  end.

Definition create_room_keys : list string :=
  ["visibility"; "room_alias_name"; "invite"; "name"; "topic"; "is_direct"].

(** * Properties *)

(** ** The regular expression on examples *)

Example search_plain :
  Regex.search mxid_regex "@alice:example.org" = Some ["alice"; "example.org"].
Proof. reflexivity. Qed.

Example search_greedy : Regex.search mxid_regex "@a:b:c" = Some ["a:b"; "c"].
Proof. reflexivity. Qed.

Example search_no_domain : Regex.search mxid_regex "@alice" = None.
Proof. reflexivity. Qed.

(** ** Registration *)

Section Registration.

Variable json_loads : string -> option json.
Variable respond : transport.

Let ensure_registered := _ensure_registered json_loads respond.
Let error_code := matrix_error_code json_loads.

Lemma ensure_registered_done (s : state) :
  IntentAPI.registered (self s) = true ->
  ensure_registered s = (Return tt, s).
Proof.
  intros Hreg. unfold ensure_registered, _ensure_registered, bind, get_self.
  rewrite Hreg. reflexivity.
Qed.

Lemma ensure_registered_accepted (s : state) (v : json) :
  IntentAPI.registered (self s) = false ->
  respond (calls s) (registration (self s)) = inr v ->
  ensure_registered s = (Return tt, marked_registered (logged (registration (self s)) s)).
Proof.
  intros Hreg Hresp.
  unfold ensure_registered, _ensure_registered, bind, get_self, try_except, request.
  rewrite Hreg. fold (registration (self s)). rewrite Hresp. reflexivity.
Qed.

Lemma ensure_registered_in_use (s : state) (e : MatrixRequestError) :
  IntentAPI.registered (self s) = false ->
  respond (calls s) (registration (self s)) = inl e ->
  json_eq_str (error_code e) "M_USER_IN_USE" = true ->
  ensure_registered s = (Return tt, marked_registered (logged (registration (self s)) s)).
Proof.
  intros Hreg Hresp Hcode.
  unfold ensure_registered, _ensure_registered, bind, get_self, try_except, request.
  rewrite Hreg. fold (registration (self s)). rewrite Hresp.
  fold error_code. rewrite Hcode. reflexivity.
Qed.

Lemma ensure_registered_refused (s : state) (e : MatrixRequestError) :
  IntentAPI.registered (self s) = false ->
  respond (calls s) (registration (self s)) = inl e ->
  json_eq_str (error_code e) "M_USER_IN_USE" = false ->
  ensure_registered s =
    (Raise (IntentError ("Failed to register " +:+ IntentAPI.mxid (self s)) e),
     logged (registration (self s)) s).
Proof.
  intros Hreg Hresp Hcode.
  unfold ensure_registered, _ensure_registered, bind, get_self, try_except, request.
  rewrite Hreg. fold (registration (self s)). rewrite Hresp.
  fold error_code. rewrite Hcode. reflexivity.
Qed.

Lemma ensure_registered_run (s : state) :
  registered_run json_loads respond s (ensure_registered s).
Proof.
  destruct (IntentAPI.registered (self s)) eqn:Hreg.
  - rewrite ensure_registered_done by assumption. now constructor.
  - destruct (respond (calls s) (registration (self s))) as [e|v] eqn:Hresp.
    + destruct (json_eq_str (error_code e) "M_USER_IN_USE") eqn:Hcode.
      * erewrite ensure_registered_in_use by eassumption. now constructor.
      * erewrite ensure_registered_refused by eassumption. now constructor.
    + erewrite ensure_registered_accepted by eassumption. now constructor.
Qed.

End Registration.

Lemma ensure_registered_attempts json_loads respond (s : state) :
  IntentAPI.registered (self s) = false ->
  calls (snd (_ensure_registered json_loads respond s)) =
    calls s ++ [registration (self s)].
Proof.
  intros Hreg.
  destruct (ensure_registered_run json_loads respond s) as [Hdone | _ | e _ _ _];
    [congruence | reflexivity | reflexivity].
Qed.

Lemma ensure_registered_returns json_loads respond (s s1 : state) :
  _ensure_registered json_loads respond s = (Return tt, s1) ->
  IntentAPI.registered (self s1) = true.
Proof.
  intros Hrun.
  pose proof (ensure_registered_run json_loads respond s) as R.
  rewrite Hrun in R. inversion R; subst; [assumption | reflexivity].
Qed.

(** C4: when the registration request fails and the error code is
    M_USER_IN_USE, [_ensure_registered] returns normally, after that one
    request, with the registered flag set. *)
Theorem already_exists_is_success json_loads respond (s : state) (e : MatrixRequestError) :
  IntentAPI.registered (self s) = false ->
  respond (calls s) (registration (self s)) = inl e ->
  json_eq_str (matrix_error_code json_loads e) "M_USER_IN_USE" = true ->
  exists s',
    _ensure_registered json_loads respond s = (Return tt, s') /\
    IntentAPI.registered (self s') = true /\
    calls s' = calls s ++ [registration (self s)].
Proof.
  intros Hreg Hresp Hcode.
  exists (marked_registered (logged (registration (self s)) s)).
  split; [| split; reflexivity].
  now apply ensure_registered_in_use with (e := e).
Qed.

(** alice on a server that knows her already. *)
Lemma already_exists_is_success_witness :
  exists s',
    _ensure_registered json_loads_sample server_user_in_use (initially alice) = (Return tt, s') /\
    IntentAPI.registered (self s') = true /\
    calls s' = [registration alice].
Proof.
  apply (already_exists_is_success json_loads_sample server_user_in_use
           (initially alice) (matrix_error 400 "M_USER_IN_USE"));
    vm_compute; reflexivity.
Defined.




(** C10: when [_ensure_registered] raises IntentError, the registered flag
    is still false and the intent is as it was, so that the next call on
    this intent, whatever the server then answers, makes the registration
    request again. *)
Theorem registration_failure_keeps_flag json_loads respond (s s' : state)
    (message : string) (source : MatrixRequestError) :
  _ensure_registered json_loads respond s = (Raise (IntentError message source), s') ->
  IntentAPI.registered (self s') = false /\
  self s' = self s /\
  forall respond' (later : state),
    self later = self s' ->
    calls (snd (_ensure_registered json_loads respond' later)) =
      calls later ++ [registration (self later)].
Proof.
  intros Hrun.
  pose proof (ensure_registered_run json_loads respond s) as R.
  rewrite Hrun in R. inversion R as [| | e Hreg Hresp Hcode]; subst.
  split; [exact Hreg | split; [reflexivity |]].
  intros respond' later Hself.
  apply ensure_registered_attempts. rewrite Hself. exact Hreg.
Qed.

(** alice refused with M_UNKNOWN, then trying again. *)
Lemma registration_failure_keeps_flag_witness :
  _ensure_registered json_loads_sample server_register_fails (initially alice) =
    (Raise (IntentError "Failed to register @alice:example.org" (matrix_error 500 "M_UNKNOWN")),
     logged (registration alice) (initially alice)) /\
  calls (snd (_ensure_registered json_loads_sample server_open
                (logged (registration alice) (initially alice)))) =
    [registration alice; registration alice].
Proof.
  assert (Hrun : _ensure_registered json_loads_sample server_register_fails (initially alice) =
    (Raise (IntentError "Failed to register @alice:example.org" (matrix_error 500 "M_UNKNOWN")),
     logged (registration alice) (initially alice))) by (vm_compute; reflexivity).
  split; [exact Hrun |].
  destruct (registration_failure_keeps_flag _ _ _ _ _ _ Hrun) as (_ & _ & Hlater).
  exact (Hlater server_open _ eq_refl).
Defined.

(** ** Joining a room *)

Section Joining.

Variable json_loads : string -> option json.
Variable respond : transport.
Variable room_id : string.

Let ensure_joined := _ensure_joined json_loads respond room_id.
Let ensure_registered := _ensure_registered json_loads respond.
Let error_code := matrix_error_code json_loads.

Lemma registered_keeps (s s1 : state) (r : outcome unit) :
  ensure_registered s = (r, s1) ->
  IntentAPI.client (self s1) = IntentAPI.client (self s) /\
  IntentAPI.bot (self s1) = IntentAPI.bot (self s) /\
  IntentAPI.mxid (self s1) = IntentAPI.mxid (self s) /\
  IntentAPI.memberships (self s1) = IntentAPI.memberships (self s).
Proof.
  intros Hrun. pose proof (ensure_registered_run json_loads respond s) as R.
  fold ensure_registered in R. rewrite Hrun in R.
  inversion R; subst; repeat split; reflexivity.
Qed.

Lemma ensure_joined_skips (s : state) (ignore_cache : bool) :
  skips (self s) room_id ignore_cache = true ->
  ensure_joined ignore_cache s = (Return tt, s).
Proof.
  intros Hskip. unfold ensure_joined, _ensure_joined, bind, get_self.
  fold (skips (self s) room_id ignore_cache). rewrite Hskip. reflexivity.
Qed.

Lemma ensure_joined_unregistered (s s1 : state) (ignore_cache : bool) (e : exn) :
  skips (self s) room_id ignore_cache = false ->
  ensure_registered s = (Raise e, s1) ->
  ensure_joined ignore_cache s = (Raise e, s1).
Proof.
  intros Hskip Hreg. unfold ensure_joined, _ensure_joined, bind, get_self.
  fold (skips (self s) room_id ignore_cache). rewrite Hskip.
  fold ensure_registered. rewrite Hreg. reflexivity.
Qed.

(** What follows the registration: the first attempt and the handler. *)
Ltac after_registration Hskip Hreg :=
  unfold ensure_joined, _ensure_joined, bind, get_self;
  match type of Hskip with
  | skips ?i _ ?c = false => fold (skips i room_id c); rewrite Hskip
  end;
  fold ensure_registered; rewrite Hreg;
  unfold try_except, bind, request, modify_self, raise, bot_invite_user; cbn [self calls].

Lemma ensure_joined_first_try (s s1 : state) (ignore_cache : bool) (v : json) :
  skips (self s) room_id ignore_cache = false ->
  ensure_registered s = (Return tt, s1) ->
  respond (calls s1) (Client.join_room (IntentAPI.client (self s)) room_id) = inr v ->
  ensure_joined ignore_cache s =
    (Return tt, joined room_id (logged (Client.join_room (IntentAPI.client (self s)) room_id) s1)).
Proof.
  intros Hskip Hreg Hjoin. after_registration Hskip Hreg.
  rewrite Hjoin. reflexivity.
Qed.

Lemma ensure_joined_fatal (s s1 : state) (ignore_cache : bool) (e : MatrixRequestError) :
  skips (self s) room_id ignore_cache = false ->
  ensure_registered s = (Return tt, s1) ->
  respond (calls s1) (Client.join_room (IntentAPI.client (self s)) room_id) = inl e ->
  json_eq_str (error_code e) "M_FORBIDDEN" = false ->
  IntentAPI.bot (self s) = None ->
  ensure_joined ignore_cache s =
    (Raise (IntentError (failed_to_join room_id (self s)) e),
     logged (Client.join_room (IntentAPI.client (self s)) room_id) s1).
Proof.
  intros Hskip Hreg Hjoin Hcode Hbot. after_registration Hskip Hreg.
  rewrite Hjoin. fold error_code. rewrite Hcode, Hbot. reflexivity.
Qed.

Lemma ensure_joined_forbidden_no_bot (s s1 : state) (ignore_cache : bool)
    (e : MatrixRequestError) :
  skips (self s) room_id ignore_cache = false ->
  ensure_registered s = (Return tt, s1) ->
  respond (calls s1) (Client.join_room (IntentAPI.client (self s)) room_id) = inl e ->
  json_eq_str (error_code e) "M_FORBIDDEN" = true ->
  IntentAPI.bot (self s) = None ->
  ensure_joined ignore_cache s =
    (Raise (AttributeError "'NoneType' object has no attribute 'invite_user'"),
     logged (Client.join_room (IntentAPI.client (self s)) room_id) s1).
Proof.
  intros Hskip Hreg Hjoin Hcode Hbot. after_registration Hskip Hreg.
  rewrite Hjoin. fold error_code. rewrite Hcode, Hbot. reflexivity.
Qed.

(** With a bot the handler goes on to the invite, whatever the error code. *)
Lemma ensure_joined_with_bot (s s1 : state) (ignore_cache : bool)
    (e : MatrixRequestError) (b : loc) :
  let join := Client.join_room (IntentAPI.client (self s)) room_id in
  let invite := Client.invite_user b room_id (IntentAPI.mxid (self s)) in
  skips (self s) room_id ignore_cache = false ->
  ensure_registered s = (Return tt, s1) ->
  respond (calls s1) join = inl e ->
  IntentAPI.bot (self s) = Some b ->
  ensure_joined ignore_cache s =
    match respond (calls s1 ++ [join]) invite with
    | inl e2 =>
        (Raise (IntentError (failed_to_join room_id (self s)) e2),
         logged invite (logged join s1))
    | inr _ =>
        match respond ((calls s1 ++ [join]) ++ [invite]) join with
        | inl e3 =>
            (Raise (IntentError (failed_to_join room_id (self s)) e3),
             logged join (logged invite (logged join s1)))
        | inr _ =>
            (Return tt, joined room_id (logged join (logged invite (logged join s1))))
        end
    end.
Proof.
  intros join invite Hskip Hreg Hjoin Hbot. after_registration Hskip Hreg.
  fold join. rewrite Hjoin. fold error_code. rewrite Hbot. cbn [truthy negb].
  rewrite andb_false_r. unfold request. cbn [self calls]. fold invite.
  destruct (respond (calls s1 ++ [join]) invite) as [e2|v2]; [reflexivity |].
  cbn [self calls].
  destruct (respond ((calls s1 ++ [join]) ++ [invite]) join) as [e3|v3]; reflexivity.
Qed.

End Joining.

(** C3: when the join attempt fails with the code M_FORBIDDEN and the intent
    has a bot, the bot's invite_user is called once, for this room and this
    user.  If the invite fails, IntentError is raised with that failure and
    nothing more is requested.  If it returns, join_room is called once
    more: its failure is raised as IntentError, and its success records the
    room as "join" in the memberships.  The requests made after the
    registration are listed in full, so nothing is called again. *)
Theorem forbidden_join_invited_once json_loads respond (room_id : string)
    (ignore_cache : bool) (s s1 : state) (e : MatrixRequestError) (b : loc) :
  let i := self s in
  let join := Client.join_room (IntentAPI.client i) room_id in
  let invite := Client.invite_user b room_id (IntentAPI.mxid i) in
  let run := _ensure_joined json_loads respond room_id ignore_cache s in
  skips i room_id ignore_cache = false ->
  _ensure_registered json_loads respond s = (Return tt, s1) ->
  respond (calls s1) join = inl e ->
  json_eq_str (matrix_error_code json_loads e) "M_FORBIDDEN" = true ->
  IntentAPI.bot i = Some b ->
  match respond (calls s1 ++ [join]) invite with
  | inl e2 =>
      fst run = Raise (IntentError (failed_to_join room_id i) e2) /\
      calls (snd run) = calls s1 ++ [join; invite] /\
      self (snd run) = self s1
  | inr _ =>
      match respond (calls s1 ++ [join; invite]) join with
      | inl e3 =>
          fst run = Raise (IntentError (failed_to_join room_id i) e3) /\
          calls (snd run) = calls s1 ++ [join; invite; join] /\
          self (snd run) = self s1
      | inr _ =>
          fst run = Return tt /\
          calls (snd run) = calls s1 ++ [join; invite; join] /\
          self (snd run) = IntentAPI.set_membership room_id "join" (self s1) /\
          IntentAPI.memberships (self (snd run)) !! room_id = Some "join"
      end
  end.
Proof.
  intros i join invite run Hskip Hreg Hjoin _ Hbot.
  unfold run.
  rewrite (ensure_joined_with_bot json_loads respond room_id s s1 ignore_cache e b
             Hskip Hreg Hjoin Hbot).
  fold i join invite.
  replace (calls s1 ++ [join; invite]) with ((calls s1 ++ [join]) ++ [invite])
    by (now rewrite <- app_assoc).
  destruct (respond (calls s1 ++ [join]) invite) as [e2|v2].
  - cbn [fst snd logged self calls]. repeat split.
  - destruct (respond ((calls s1 ++ [join]) ++ [invite]) join) as [e3|v3];
      cbn [fst snd logged joined self calls]; repeat split;
      try (now rewrite <- !app_assoc).
    cbn [IntentAPI.set_membership IntentAPI.memberships].
    apply lookup_insert_eq.
Qed.

(** alice joining an invite-only room: register, join, invite, join. *)
Lemma forbidden_join_invited_once_witness :
  let room := "!room:example.org" in
  let run := _ensure_joined json_loads_sample server_invite_only room false (initially alice) in
  fst run = Return tt /\
  calls (snd run) =
    [registration alice; Client.join_room 1 room;
     Client.invite_user 0 room "@alice:example.org"; Client.join_room 1 room] /\
  IntentAPI.memberships (self (snd run)) !! room = Some "join".
Proof.
  pose proof (forbidden_join_invited_once json_loads_sample server_invite_only
                "!room:example.org" false (initially alice)
                (marked_registered (logged (registration alice) (initially alice)))
                (matrix_error 403 "M_FORBIDDEN") 0
                eq_refl eq_refl eq_refl eq_refl eq_refl) as W.
  cbv zeta in W |- *.
  destruct W as (Hret & Hcalls & _ & Hroom).
  split; [exact Hret | split; [exact Hcalls | exact Hroom]].
Defined.

(** C1 fails on the code: the guard of [_ensure_joined] tests
    [ignore_cache] where the claim has its negation.  For alice with the
    room recorded as "join", [join_room] returns without any request, while
    [send_event] registers her and joins the room before it sends. *)
Theorem cache_guard_is_inverted :
  let room := "!room:example.org" in
  let s := initially (IntentAPI.set_membership room "join" alice) in
  let body := JDict {[ "body" := JStr "hi"; "msgtype" := JStr "m.text" ]} in
  join_room json_loads_sample server_open room s = (Return tt, s) /\
  calls (snd (send_event json_loads_sample server_open room "m.room.message" body None None s)) =
    [registration alice; Client.join_room 1 room;
     Client.send_message_event 1 room "m.room.message" body None None].
Proof. split; vm_compute; reflexivity. Qed.

(** C2 fails on the code: the handler raises IntentError at once only when
    the code is not M_FORBIDDEN and there is no bot as well.  The bot's own
    intent, refused with M_FORBIDDEN, ends in AttributeError; alice, whose
    join fails with M_UNKNOWN, has the bot invite her and joins again. *)
Theorem join_failure_goes_on_to_invite :
  let room := "!room:example.org" in
  let refused := join_room json_loads_sample server_closed room (initially bridge_bot) in
  let broken := _ensure_joined json_loads_sample server_broken_join room false (initially alice) in
  fst refused = Raise (AttributeError "'NoneType' object has no attribute 'invite_user'") /\
  calls (snd refused) = [registration bridge_bot; Client.join_room 0 room] /\
  fst broken = Raise (IntentError "Failed to join room !room:example.org as @alice:example.org"
                        (matrix_error 500 "M_UNKNOWN")) /\
  calls (snd broken) =
    [registration alice; Client.join_room 1 room;
     Client.invite_user 0 room "@alice:example.org"; Client.join_room 1 room].
Proof. repeat split; vm_compute; reflexivity. Qed.

(** C6 fails on the code: [search] finds the pattern anywhere in the
    identifier, so an identifier that only contains a part of the form
    @localpart:domain is accepted. *)
Theorem init_accepts_inner_match :
  IntentAPI.init "x@a:b" 1 (Some 0) None =
    Return {| IntentAPI.client := 1; IntentAPI.bot := Some 0; IntentAPI.mxid := "x@a:b";
              IntentAPI.log := None; IntentAPI.localpart := "a";
              IntentAPI.memberships := empty; IntentAPI.power_levels := empty;
              IntentAPI.registered := false |}.
Proof. reflexivity. Qed.

(** ** The connection objects *)

Lemma user_cached (h : heap) (self child : loc) (r : HTTPAPI.t) (user : string) :
  h !! self = Some (Root r) ->
  HTTPAPI.children r !! user = Some child ->
  HTTPAPI_user self user h = Some (Return child, h).
Proof.
  intros Hself Hchild. unfold HTTPAPI_user. now rewrite Hself, Hchild.
Qed.

Lemma user_created (h : heap) (self : loc) (r : HTTPAPI.t) (user : string) :
  h !! self = Some (Root r) ->
  HTTPAPI.children r !! user = None ->
  HTTPAPI_user self user h =
    Some (Return (length h),
          <[self := Root (HTTPAPI.set_child user (length h) r)]>
            (h ++ [Child (derived user self r)])).
Proof.
  intros Hself Hchild. unfold HTTPAPI_user, ChildHTTPAPI_init.
  now rewrite Hself, Hchild.
Qed.

Lemma created_lookup_self (h : heap) (self : loc) (r r' : HTTPAPI.t) (o : object) :
  h !! self = Some (Root r) ->
  <[self := Root r']> (h ++ [o]) !! self = Some (Root r').
Proof.
  intros Hself. apply list_lookup_insert_eq.
  rewrite length_app. apply lookup_lt_Some in Hself. lia.
Qed.

Lemma created_lookup_new (h : heap) (self : loc) (r r' : HTTPAPI.t) (o : object) :
  h !! self = Some (Root r) ->
  <[self := Root r']> (h ++ [o]) !! length h = Some o.
Proof.
  intros Hself. apply lookup_lt_Some in Hself.
  rewrite list_lookup_insert_ne by lia.
  now apply list_lookup_middle.
Qed.

Lemma created_lookup_old (h : heap) (self l : loc) (r' : HTTPAPI.t) (o : object) :
  l <> self -> l < length h ->
  <[self := Root r']> (h ++ [o]) !! l = h !! l.
Proof.
  intros Hne Hlt. rewrite list_lookup_insert_ne by congruence.
  now apply lookup_app_l.
Qed.

(** The invariant holds of the empty heap and the two constructors keep
    it. *)
Lemma heap_wf_nil : heap_wf [].
Proof.
  split; intros *; rewrite lookup_nil; discriminate.
Qed.

Lemma heap_wf_init base_url bot_mxid token identity log (h : heap) :
  heap_wf h ->
  heap_wf (fst (HTTPAPI_init base_url bot_mxid token identity log h)).
Proof.
  intros [Hparent Hchildren]. cbn [HTTPAPI_init fst]. split.
  - intros l c Hl. apply lookup_snoc_Some in Hl as [[_ Hl] | [_ Hl]];
      [now apply Hparent in Hl | discriminate].
  - intros l r user k Hl Hk. apply lookup_snoc_Some in Hl as [[_ Hl] | [_ Hl]].
    + destruct (Hchildren l r user k Hl Hk) as (c & Hc & Hp & Hi).
      exists c. split; [now apply lookup_app_l_Some | now split].
    + injection Hl as <-. cbn in Hk. rewrite lookup_empty in Hk. discriminate.
Qed.

Lemma heap_wf_user (h h1 : heap) (self child : loc) (r : HTTPAPI.t) (user : string) :
  heap_wf h ->
  h !! self = Some (Root r) ->
  HTTPAPI_user self user h = Some (Return child, h1) ->
  heap_wf h1.
Proof.
  intros [Hparent Hchildren] Hself Hrun.
  destruct (HTTPAPI.children r !! user) as [k|] eqn:Hk.
  - rewrite (user_cached h self k r user Hself Hk) in Hrun.
    injection Hrun as <- <-. now split.
  - rewrite (user_created h self r user Hself Hk) in Hrun.
    injection Hrun as <- <-.
    pose proof (lookup_lt_Some _ _ _ Hself) as Hlt.
    split.
    + intros l c Hl. apply list_lookup_insert_Some in Hl as [(_ & Hl & _) | (Hne & Hl)];
        [discriminate |].
      apply lookup_snoc_Some in Hl as [[_ Hl] | [-> Hl]].
      * now apply Hparent in Hl.
      * injection Hl as <-. exact Hlt.
    + intros l r' u k Hl Hu.
      apply list_lookup_insert_Some in Hl as [(<- & Hl & _) | (Hne & Hl)].
      * injection Hl as <-. cbn in Hu.
        destruct (decide (user = u)) as [<- | Hu'].
        -- rewrite lookup_insert_eq in Hu. injection Hu as <-.
           exists (derived user self r).
           split; [now apply created_lookup_new with (r := r) | now split].
        -- rewrite lookup_insert_ne in Hu by assumption.
           destruct (Hchildren self r u k Hself Hu) as (c & Hc & Hp & Hi).
           exists c. split; [| now split].
           rewrite created_lookup_old; [assumption | congruence | now apply lookup_lt_Some in Hc].
      * apply lookup_snoc_Some in Hl as [[_ Hl] | [_ Hl]]; [| discriminate].
        destruct (Hchildren l r' u k Hl Hu) as (c & Hc & Hp & Hi).
        exists c. split; [| now split].
        rewrite created_lookup_old; [assumption | congruence | now apply lookup_lt_Some in Hc].
Qed.

(** C7, as the claim states it, fails on the code: the ChildHTTPAPI made
    for @alice:example.org on an HTTPAPI without an identity has alice's
    identifier as its identity, not its parent's. *)
Lemma child_identity_is_the_user :
  let h := fst (HTTPAPI_init "https://matrix.example.org" (Some "@bridge:example.org")
                  (Some "secret") None None []) in
  exists r c child h1,
    h !! 0 = Some (Root r) /\
    HTTPAPI_user 0 "@alice:example.org" h = Some (Return child, h1) /\
    h1 !! child = Some (Child c) /\
    HTTPAPI.identity r = None /\
    ChildHTTPAPI.identity c = "@alice:example.org" /\
    Some (ChildHTTPAPI.identity c) <> HTTPAPI.identity r.
Proof.
  cbv zeta. eexists _, _, _, _. repeat split; try reflexivity. discriminate.
Qed.

(** C7, amended: [HTTPAPI.user] on an HTTPAPI returns for every identifier,
    and asking again returns the same object and leaves the heap as it is.
    An object made by the call is new in the heap, has the identifier as
    its identity, the HTTPAPI as its parent, and the token, base URL,
    validate_cert and log of the HTTPAPI.  Two calls of [HTTPAPI.intent]
    construct their intents on that same object. *)
Theorem user_memoizes (h : heap) (self : loc) (r : HTTPAPI.t) (user : string) :
  h !! self = Some (Root r) ->
  exists child h1,
    HTTPAPI_user self user h = Some (Return child, h1) /\
    HTTPAPI_user self user h1 = Some (Return child, h1) /\
    (forall k, HTTPAPI.children r !! user = Some k -> child = k /\ h1 = h) /\
    (HTTPAPI.children r !! user = None ->
       h !! child = None /\
       h1 !! child = Some (Child (derived user self r))) /\
    HTTPAPI_intent self user h =
      Some (IntentAPI.init user child (Some self) (HTTPAPI.log r), h1) /\
    HTTPAPI_intent self user h1 =
      Some (IntentAPI.init user child (Some self) (HTTPAPI.log r), h1).
Proof.
  intros Hself.
  destruct (HTTPAPI.children r !! user) as [k|] eqn:Hk.
  - pose proof (user_cached h self k r user Hself Hk) as Hrun.
    exists k, h. unfold HTTPAPI_intent. rewrite Hrun, Hself. cbn [obj_log].
    repeat split; congruence.
  - pose proof (user_created h self r user Hself Hk) as Hrun.
    set (r' := HTTPAPI.set_child user (length h) r) in *.
    set (h1 := <[self := Root r']> (h ++ [Child (derived user self r)])) in *.
    assert (Hself1 : h1 !! self = Some (Root r'))
      by (now apply created_lookup_self with (r := r)).
    assert (Hagain : HTTPAPI_user self user h1 = Some (Return (length h), h1)).
    { apply user_cached with (r := r'); [exact Hself1 |]. apply lookup_insert_eq. }
    exists (length h), h1. unfold HTTPAPI_intent. rewrite Hrun, Hagain, Hself1.
    cbn [obj_log r' HTTPAPI.set_child HTTPAPI.log].
    repeat split; try discriminate.
    + now apply lookup_ge_None_2.
    + now apply created_lookup_new with (r := r).
Qed.

(** The context of alice on a new HTTPAPI. *)
Lemma user_memoizes_witness :
  let h := fst (HTTPAPI_init "https://matrix.example.org" (Some "@bridge:example.org")
                  (Some "secret") None None []) in
  exists child h1,
    HTTPAPI_user 0 "@alice:example.org" h = Some (Return child, h1) /\
    HTTPAPI_user 0 "@alice:example.org" h1 = Some (Return child, h1) /\
    exists c, h1 !! child = Some (Child c) /\ ChildHTTPAPI.token c = Some "secret".
Proof.
  cbv zeta.
  destruct (user_memoizes
              (fst (HTTPAPI_init "https://matrix.example.org" (Some "@bridge:example.org")
                      (Some "secret") None None []))
              0 _ "@alice:example.org" eq_refl)
    as (child & h1 & Hfirst & Hagain & _ & Hnew & _).
  exists child, h1. split; [exact Hfirst | split; [exact Hagain |]].
  destruct (Hnew eq_refl) as [_ Hchild].
  eexists. split; [exact Hchild | reflexivity].
Defined.

(** ** The shared transaction counter *)

Lemma rooted_exists (h : heap) :
  parents_older h ->
  forall l o, h !! l = Some o -> exists rl r, rooted h l rl /\ h !! rl = Some (Root r).
Proof.
  intros Hparent l. induction l as [l IH] using lt_wf_ind. intros o Hl.
  destruct o as [r | c].
  - exists l, r. split; [now apply rooted_here with (r := r) | assumption].
  - pose proof (Hparent l c Hl) as Hlt.
    destruct (lookup_lt_is_Some_2 h (ChildHTTPAPI.parent c)) as [p Hp].
    { apply lookup_lt_Some in Hl. lia. }
    destruct (IH _ Hlt p Hp) as (rl & r & Hroot & Hrl).
    exists rl, r. split; [now apply rooted_parent with (c := c) | assumption].
Qed.

Lemma root_of_rooted (h : heap) :
  parents_older h ->
  forall l rl, rooted h l rl -> forall fuel, l < fuel -> root_of fuel h l = Some rl.
Proof.
  intros Hparent l rl Hroot. induction Hroot as [l r Hl | l c rl Hl _ IH];
    intros [|fuel] Hfuel; try lia; cbn [root_of]; rewrite Hl; [reflexivity |].
  apply IH. pose proof (Hparent l c Hl). lia.
Qed.

Lemma rooted_root_of (h : heap) (fuel : nat) :
  forall l rl, root_of fuel h l = Some rl -> rooted h l rl.
Proof.
  induction fuel as [|fuel IH]; intros l rl; cbn [root_of]; [discriminate |].
  destruct (h !! l) as [[r | c] |] eqn:Hl; [| | discriminate].
  - intros [= <-]. now apply rooted_here with (r := r).
  - intros Hrec. apply rooted_parent with (c := c); [assumption | now apply IH].
Qed.

Lemma read_rooted (h : heap) :
  parents_older h ->
  forall l rl, rooted h l rl ->
  forall r fuel, h !! rl = Some (Root r) -> l < fuel ->
    read_txn_id fuel h l = Some (HTTPAPI.txn_id r).
Proof.
  intros Hparent l rl Hroot. induction Hroot as [l r0 Hl | l c rl Hl _ IH];
    intros r [|fuel] Hrl Hfuel; try lia; cbn [read_txn_id]; rewrite Hl.
  - congruence.
  - apply IH; [assumption |]. pose proof (Hparent l c Hl). lia.
Qed.

Lemma write_rooted (h : heap) (value : Z) :
  parents_older h ->
  forall l rl, rooted h l rl ->
  forall r fuel, h !! rl = Some (Root r) -> l < fuel ->
    write_txn_id fuel h l value = Some (<[rl := Root (HTTPAPI.set_txn_id value r)]> h).
Proof.
  intros Hparent l rl Hroot. induction Hroot as [l r0 Hl | l c rl Hl _ IH];
    intros r [|fuel] Hrl Hfuel; try lia; cbn [write_txn_id]; rewrite Hl.
  - congruence.
  - apply IH; [assumption |]. pose proof (Hparent l c Hl). lia.
Qed.

(** Writing the counter of the HTTPAPI at [rl] changes no ChildHTTPAPI and
    no chain of parents. *)
Lemma written_child (h : heap) (rl l : loc) (r r' : HTTPAPI.t) (c : ChildHTTPAPI.t) :
  h !! rl = Some (Root r) ->
  <[rl := Root r']> h !! l = Some (Child c) <-> h !! l = Some (Child c).
Proof.
  intros Hrl. rewrite list_lookup_insert_Some. split.
  - intros [(_ & Hl & _) | (_ & Hl)]; [discriminate | assumption].
  - intros Hl. right. split; [congruence | assumption].
Qed.

Lemma written_parents_older (h : heap) (rl : loc) (r r' : HTTPAPI.t) :
  h !! rl = Some (Root r) ->
  parents_older h -> parents_older (<[rl := Root r']> h).
Proof.
  intros Hrl Hparent l c Hl. apply (written_child h rl l r r' c Hrl) in Hl.
  now apply Hparent in Hl.
Qed.

Lemma written_rooted (h : heap) (rl : loc) (r r' : HTTPAPI.t) :
  h !! rl = Some (Root r) ->
  forall l rl', rooted h l rl' -> rooted (<[rl := Root r']> h) l rl'.
Proof.
  intros Hrl l rl' Hroot. induction Hroot as [l r0 Hl | l c rl0 Hl _ IH].
  - destruct (decide (rl = l)) as [<- | Hne].
    + apply rooted_here with (r := r').
      apply list_lookup_insert_eq. now apply lookup_lt_Some in Hrl.
    + apply rooted_here with (r := r0). now rewrite list_lookup_insert_ne.
  - apply rooted_parent with (c := c); [| exact IH].
    now apply (written_child h rl l r r' c Hrl).
Qed.

Lemma heap_wf_child_init (h h1 : heap) (user : string) (parent l : loc) :
  heap_wf h ->
  ChildHTTPAPI_init user parent h = Some (h1, l) ->
  heap_wf h1.
Proof.
  intros [Hparent Hchildren]. unfold ChildHTTPAPI_init.
  destruct (h !! parent) as [p|] eqn:Hp; [| discriminate].
  intros [= <- <-]. split.
  - intros k c Hk. apply lookup_snoc_Some in Hk as [[_ Hk] | [-> Hk]];
      [now apply Hparent in Hk |].
    injection Hk as <-. now apply lookup_lt_Some in Hp.
  - intros k r u j Hk Hu. apply lookup_snoc_Some in Hk as [[_ Hk] | [_ Hk]];
      [| discriminate].
    destruct (Hchildren k r u j Hk Hu) as (c & Hc & Hpc & Hi).
    exists c. split; [now apply lookup_app_l_Some | now split].
Qed.

Lemma heap_wf_written (h : heap) (rl : loc) (r : HTTPAPI.t) (value : Z) :
  heap_wf h ->
  h !! rl = Some (Root r) ->
  heap_wf (<[rl := Root (HTTPAPI.set_txn_id value r)]> h).
Proof.
  intros [Hparent Hchildren] Hrl. split.
  - now apply written_parents_older with (r := r).
  - intros l r0 user k Hl Hk.
    assert (exists r1, h !! l = Some (Root r1) /\ HTTPAPI.children r1 !! user = Some k)
      as (r1 & Hl1 & Hk1).
    { apply list_lookup_insert_Some in Hl as [(<- & Hl & _) | (_ & Hl)].
      - injection Hl as <-. now exists r.
      - now exists r0. }
    destruct (Hchildren l r1 user k Hl1 Hk1) as (c & Hc & Hp & Hi).
    exists c. split; [| now split].
    now apply (written_child h rl k r _ c Hrl).
Qed.

Lemma child_reads_root (h : heap) (l rl : loc) (c : ChildHTTPAPI.t) (r : HTTPAPI.t) :
  parents_older h ->
  h !! l = Some (Child c) ->
  rooted h l rl ->
  h !! rl = Some (Root r) ->
  ChildHTTPAPI_txn_id h l = Some (HTTPAPI.txn_id r).
Proof.
  intros Hparent Hl Hroot Hrl. unfold ChildHTTPAPI_txn_id. rewrite Hl.
  inversion Hroot as [l0 r0 Hl0 | l0 c0 rl0 Hl0 Hup]; subst; [congruence |].
  assert (c0 = c) as -> by congruence.
  apply read_rooted with (rl := rl); try assumption.
  pose proof (Hparent l c Hl). apply lookup_lt_Some in Hl. lia.
Qed.

Lemma sample_heap_wf : heap_wf sample_heap.
Proof.
  unfold sample_heap.
  eapply heap_wf_user with
    (h := heap_after_user 0 "@alice:example.org" sample_root)
    (self := 0) (user := "@bob:example.org");
    [| reflexivity | reflexivity].
  eapply heap_wf_user with (h := sample_root) (self := 0) (user := "@alice:example.org");
    [| reflexivity | reflexivity].
  apply heap_wf_init, heap_wf_nil.
Qed.

(** C8: the txn_id of a ChildHTTPAPI is the txn_id of the HTTPAPI at the end
    of its chain of parents: reading it gives that attribute, and setting
    it updates that attribute and nothing else in the heap, the child
    included.  Every ChildHTTPAPI with the same HTTPAPI at the end of its
    chain, such as every context in that HTTPAPI's children dict, reads the
    same value before the write and the written value after it.  The heap
    after the write is again one built by the constructors, so that the same
    holds from then on. *)
Theorem txn_id_is_the_roots (h : heap) (l : loc) (c : ChildHTTPAPI.t) :
  heap_wf h ->
  h !! l = Some (Child c) ->
  exists rl r,
    root_of (length h) h l = Some rl /\
    h !! rl = Some (Root r) /\
    ChildHTTPAPI_txn_id h l = Some (HTTPAPI.txn_id r) /\
    (forall l2 c2,
       h !! l2 = Some (Child c2) -> root_of (length h) h l2 = Some rl ->
       ChildHTTPAPI_txn_id h l2 = Some (HTTPAPI.txn_id r)) /\
    (forall user k,
       HTTPAPI.children r !! user = Some k -> root_of (length h) h k = Some rl) /\
    forall value,
      let h' := <[rl := Root (HTTPAPI.set_txn_id value r)]> h in
      ChildHTTPAPI_txn_id_setter h l value = Some h' /\
      heap_wf h' /\
      h' !! l = Some (Child c) /\
      forall l2 c2,
        h !! l2 = Some (Child c2) -> root_of (length h) h l2 = Some rl ->
        ChildHTTPAPI_txn_id h' l2 = Some value.
Proof.
  intros [Hparent Hchildren] Hl.
  destruct (rooted_exists h Hparent l _ Hl) as (rl & r & Hroot & Hrl).
  pose proof (lookup_lt_Some _ _ _ Hl) as Hlt.
  exists rl, r. repeat split.
  - now apply root_of_rooted.
  - exact Hrl.
  - now apply child_reads_root with (rl := rl) (c := c).
  - intros l2 c2 Hl2 Hroot2. apply rooted_root_of in Hroot2.
    now apply child_reads_root with (rl := rl) (c := c2).
  - intros user k Hk.
    destruct (Hchildren rl r user k Hrl Hk) as (ck & Hck & Hp & _).
    apply root_of_rooted; [assumption | | now apply lookup_lt_Some in Hck].
    apply rooted_parent with (c := ck); [assumption |].
    rewrite Hp. now apply rooted_here with (r := r).
  - unfold ChildHTTPAPI_txn_id_setter. rewrite Hl.
    inversion Hroot as [l0 r0 Hl0 | l0 c0 rl0 Hl0 Hup]; subst; [congruence |].
    assert (c0 = c) as -> by congruence.
    apply write_rooted; try assumption.
    pose proof (Hparent l c Hl). lia.
  - now apply written_parents_older with (r := r).
  - now apply heap_wf_written.
  - now apply (written_child h rl l r _ c Hrl).
  - intros l2 c2 Hl2 Hroot2. apply rooted_root_of in Hroot2.
    set (r' := HTTPAPI.set_txn_id value r).
    change (Some value) with (Some (HTTPAPI.txn_id r')).
    apply child_reads_root with (rl := rl) (c := c2).
    + now apply written_parents_older with (r := r).
    + now apply (written_child h rl l2 r r' c2 Hrl).
    + now apply written_rooted with (r := r).
    + apply list_lookup_insert_eq. now apply lookup_lt_Some in Hrl.
Qed.

(** alice's context reads 0; after it writes 7, bob's context and the
    HTTPAPI read 7. *)
Lemma txn_id_is_the_roots_witness :
  ChildHTTPAPI_txn_id sample_heap 1 = Some 0%Z /\
  exists h',
    ChildHTTPAPI_txn_id_setter sample_heap 1 7%Z = Some h' /\
    ChildHTTPAPI_txn_id h' 2 = Some 7%Z /\
    read_txn_id 1 h' 0 = Some 7%Z.
Proof.
  destruct (txn_id_is_the_roots sample_heap 1 _ sample_heap_wf eq_refl)
    as (rl & r & Hroot & Hrl & Hread & _ & _ & Hwrite).
  assert (rl = 0) as -> by (vm_compute in Hroot; congruence).
  assert (HTTPAPI.txn_id r = 0%Z) as Hzero
    by (vm_compute in Hrl; injection Hrl as <-; reflexivity).
  split; [now rewrite Hread, Hzero |].
  destruct (Hwrite 7%Z) as (Hset & _ & _ & Hall).
  eexists. split; [exact Hset | split].
  - apply (Hall 2 (derived "@bob:example.org" 0 r)); [| reflexivity].
    vm_compute in Hrl. injection Hrl as <-. reflexivity.
  - cbn [read_txn_id]. rewrite list_lookup_insert_eq by (vm_compute; lia). reflexivity.
Defined.

(** ** Text messages *)

Lemma or_text_fallback (unformatted_text : option string) (text : string) :
  or_text unformatted_text text = fallback_text unformatted_text text.
Proof.
  destruct unformatted_text as [[|c u]|]; reflexivity.
Qed.

(** C9: [send_text] is [send_event] with the type m.room.message, no
    transaction id and no timestamp, on a body that holds exactly: without
    html, the text as body and the msgtype; with html, the unformatted text
    (the text when there is none) as body, the msgtype, the format
    org.matrix.custom.html and the text as formatted_body.  The msgtype is
    m.notice for a notice and m.text otherwise. *)
Theorem send_text_body json_loads respond (room_id text : string)
    (unformatted_text : option string) (notice : bool) :
  send_text json_loads respond room_id text false unformatted_text notice =
    send_event json_loads respond room_id "m.room.message"
      (JDict {[ "body" := JStr text; "msgtype" := JStr (msgtype notice) ]})
      None None /\
  send_text json_loads respond room_id text true unformatted_text notice =
    send_event json_loads respond room_id "m.room.message"
      (JDict {[ "body" := JStr (fallback_text unformatted_text text);
                "msgtype" := JStr (msgtype notice);
                "format" := JStr "org.matrix.custom.html";
                "formatted_body" := JStr text ]})
      None None.
Proof.
  unfold send_text, send_message. rewrite or_text_fallback. fold (msgtype notice).
  split; do 2 f_equal; apply map_eq; intros k;
    repeat (rewrite lookup_insert; case_decide; [reflexivity |]);
    reflexivity.
Qed.

Example send_text_plain :
  calls (snd (send_text json_loads_sample server_open "!room:example.org" "hi" false None false
                (initially alice))) =
    [registration alice; Client.join_room 1 "!room:example.org";
     Client.send_message_event 1 "!room:example.org" "m.room.message"
       (JDict {[ "body" := JStr "hi"; "msgtype" := JStr "m.text" ]}) None None].
Proof. vm_compute. reflexivity. Qed.

Example send_text_html :
  calls (snd (send_text json_loads_sample server_open "!room:example.org" "<b>hi</b>" true
                (Some "hi") false (initially alice))) =
    [registration alice; Client.join_room 1 "!room:example.org";
     Client.send_message_event 1 "!room:example.org" "m.room.message"
       (JDict {[ "body" := JStr "hi"; "msgtype" := JStr "m.text";
                 "format" := JStr "org.matrix.custom.html";
                 "formatted_body" := JStr "<b>hi</b>" ]}) None None].
Proof. vm_compute. reflexivity. Qed.

(** ** Which identifiers the constructor accepts *)

Lemma app_cons (c : ascii) (a b : string) : String c a +:+ b = String c (a +:+ b).
Proof. reflexivity. Qed.

Lemma app_empty (b : string) : EmptyString +:+ b = b.
Proof. reflexivity. Qed.

Ltac string_app := rewrite ?app_cons, ?app_empty.

Lemma all_chars_app f (a b : string) :
  all_chars f (a +:+ b) = all_chars f a && all_chars f b.
Proof.
  induction a as [|x a IH]; [reflexivity |].
  rewrite app_cons. cbn [all_chars]. now rewrite IH, andb_assoc.
Qed.

Section DotPlus.

Variable rest : string -> option (list string).

Lemma dot_plus_sound (s g : string) (gs : list string) :
  Regex.dot_plus rest s = Some (g, gs) ->
  g <> EmptyString /\ one_line g = true /\
  exists t, s = g +:+ t /\ rest t = Some gs.
Proof.
  revert g gs. induction s as [|c s IH]; intros g gs; cbn; [discriminate |].
  destruct (Regex.dot c) eqn:Hc; [| discriminate].
  destruct (Regex.dot_plus rest s) as [[g' gs']|] eqn:Hrec.
  - intros [= <- <-]. destruct (IH _ _ eq_refl) as (_ & Hline & t & -> & Hrest).
    repeat split; [discriminate | cbn; now rewrite Hc | now exists t].
  - destruct (rest s) as [gs'|] eqn:Hrest; [| discriminate].
    intros [= <- <-].
    repeat split; [discriminate | cbn; now rewrite Hc | now exists s].
Qed.


End DotPlus.

Lemma match_here_lit (c : ascii) (p : list Regex.item) (s : string) :
  Regex.match_here (Regex.Lit c :: p) (String c s) = Regex.match_here p s.
Proof. cbn [Regex.match_here]. now rewrite Ascii.eqb_refl. Qed.

Lemma match_here_group (p : list Regex.item) (s : string) :
  Regex.match_here (Regex.DotPlusGroup :: p) s =
    match Regex.dot_plus (Regex.match_here p) s with
    | Some (g, gs) => Some (g :: gs)
    | None => None
    end.
Proof. reflexivity. Qed.

(** The last group takes the whole line. *)
Lemma dot_plus_last (d : string) :
  d <> EmptyString -> one_line d = true ->
  Regex.dot_plus (Regex.match_here []) d = Some (d, []).
Proof.
  induction d as [|c d IH]; [congruence |]. intros _ Hline.
  cbn in Hline. apply andb_true_iff in Hline as [Hc Hline].
  cbn [Regex.dot_plus]. rewrite Hc. destruct d as [|c' d].
  - reflexivity.
  - now rewrite IH.
Qed.

Lemma colon_free_no_colon (a b : string) :
  colon_free (a +:+ String ":" b) = false.
Proof.
  unfold colon_free. rewrite all_chars_app. cbn [all_chars Ascii.eqb Bool.eqb negb].
  apply andb_false_r.
Qed.

(** With no colon in the domain, the first group is the local part. *)
Lemma dot_plus_local_part (l d : string) :
  l <> EmptyString -> d <> EmptyString ->
  one_line l = true -> one_line d = true -> colon_free d = true ->
  Regex.dot_plus (Regex.match_here [Regex.Lit ":"; Regex.DotPlusGroup])
    (l +:+ ":" +:+ d) = Some (l, [d]).
Proof.
  intros Hl Hd Hline_l Hline_d Hcolon.
  induction l as [|c l IH]; [congruence |].
  cbn in Hline_l. apply andb_true_iff in Hline_l as [Hc Hline_l].
  rewrite app_cons. cbn [Regex.dot_plus]. rewrite Hc.
  destruct l as [|c' l].
  - string_app.
    destruct (Regex.dot_plus _ (String ":" d)) as [[g gs]|] eqn:Hrec.
    + apply dot_plus_sound in Hrec as (Hg & _ & t & Hsplit & Hrest).
      destruct g as [|x g]; [congruence |]. rewrite app_cons in Hsplit.
      injection Hsplit as _ ->.
      destruct t as [|y t]; cbn [Regex.match_here] in Hrest; [discriminate |].
      destruct (Ascii.eqb_spec ":" y) as [<- |]; [| discriminate].
      rewrite colon_free_no_colon in Hcolon. discriminate.
    + rewrite match_here_lit, match_here_group.
      rewrite dot_plus_last by assumption. reflexivity.
  - now rewrite IH.
Qed.

Lemma search_here (p : list Regex.item) (s : string) (gs : list string) :
  Regex.match_here p s = Some gs -> Regex.search p s = Some gs.
Proof. intros H. destruct s; cbn [Regex.search]; now rewrite H. Qed.


Lemma search_sound (p : list Regex.item) (s : string) (gs : list string) :
  Regex.search p s = Some gs ->
  exists pre suf, s = pre +:+ suf /\ Regex.match_here p suf = Some gs.
Proof.
  induction s as [|c s IH]; cbn [Regex.search].
  - destruct (Regex.match_here p EmptyString) eqn:H; [| discriminate].
    intros [= <-]. now exists EmptyString, EmptyString.
  - destruct (Regex.match_here p (String c s)) eqn:H.
    + intros [= <-]. now exists EmptyString, (String c s).
    + intros Hs. destruct (IH Hs) as (pre & suf & -> & Hm).
      now exists (String c pre), suf.
Qed.

Lemma mxid_regex_sound (s : string) (gs : list string) :
  Regex.match_here mxid_regex s = Some gs ->
  exists l d post,
    gs = [l; d] /\ s = "@" +:+ l +:+ ":" +:+ d +:+ post /\
    l <> EmptyString /\ d <> EmptyString /\
    one_line l = true /\ one_line d = true.
Proof.
  unfold mxid_regex. cbn [Regex.match_here].
  destruct s as [|c s]; [discriminate |].
  destruct (Ascii.eqb_spec "@" c) as [<- |]; [| discriminate].
  destruct (Regex.dot_plus _ s) as [[l gs1]|] eqn:H1; [| discriminate].
  intros [= <-].
  apply dot_plus_sound in H1 as (Hl & Hline_l & t & -> & Hrest).
  destruct t as [|c t]; [discriminate |]. cbn [Regex.match_here] in Hrest.
  destruct (Ascii.eqb_spec ":" c) as [<- |]; [| discriminate].
  destruct (Regex.dot_plus _ t) as [[d gs2]|] eqn:H2; [| discriminate].
  injection Hrest as <-.
  apply dot_plus_sound in H2 as (Hd & Hline_d & post & -> & Hnil).
  injection Hnil as <-.
  exists l, d, post. repeat split; assumption.
Qed.



(** X2: an identifier that is an at sign, a local part, a colon and a
    domain without a colon is accepted, and the local part recorded is
    everything between the at sign and that last colon, colons included. *)
Lemma init_two_part (mxid l d : string) (client : loc) (bot log : option loc) :
  two_part mxid l d -> colon_free d = true ->
  IntentAPI.init mxid client bot log =
    Return {| IntentAPI.client := client; IntentAPI.bot := bot; IntentAPI.mxid := mxid;
              IntentAPI.log := log; IntentAPI.localpart := l;
              IntentAPI.memberships := empty; IntentAPI.power_levels := empty;
              IntentAPI.registered := false |}.
Proof.
  intros (-> & Hl & Hd & Hll & Hld) Hcolon. unfold IntentAPI.init.
  rewrite (search_here mxid_regex _ [l; d]); [reflexivity |].
  unfold mxid_regex.
  change ("@" +:+ l +:+ ":" +:+ d) with (String "@" (l +:+ ":" +:+ d)).
  rewrite match_here_lit, match_here_group.
  now rewrite dot_plus_local_part.
Qed.

(** * Further properties *)

(** ** The runs of the join guard *)

Lemma ensure_joined_run json_loads respond (room_id : string) (ignore_cache : bool)
    (s : state) :
  join_run json_loads respond room_id ignore_cache s
    (_ensure_joined json_loads respond room_id ignore_cache s).
Proof.
  destruct (skips (self s) room_id ignore_cache) eqn:Hskip.
  { rewrite ensure_joined_skips by assumption. now constructor. }
  destruct (_ensure_registered json_loads respond s) as [[[]|e0] s1] eqn:Hreg.
  2: { rewrite (ensure_joined_unregistered _ _ _ _ _ _ _ Hskip Hreg). now constructor. }
  unfold join_call, invite_call.
  destruct (respond (calls s1) (Client.join_room (IntentAPI.client (self s)) room_id))
    as [e|v] eqn:Hjoin.
  2: { rewrite (ensure_joined_first_try _ _ _ _ _ _ _ Hskip Hreg Hjoin). now constructor. }
  destruct (IntentAPI.bot (self s)) as [b|] eqn:Hbot.
  - rewrite (ensure_joined_with_bot _ _ _ _ _ _ _ _ Hskip Hreg Hjoin Hbot).
    destruct (respond _ (Client.invite_user b room_id _)) as [e2|v2].
    + now apply join_invite_failed.
    + destruct (respond ((_ ++ _) ++ _) _) as [e3|v3];
        [now apply join_retry_failed | now apply join_retried].
  - destruct (json_eq_str (matrix_error_code json_loads e) "M_FORBIDDEN") eqn:Hcode.
    + rewrite (ensure_joined_forbidden_no_bot _ _ _ _ _ _ _ Hskip Hreg Hjoin Hcode Hbot).
      now apply join_no_bot.
    + rewrite (ensure_joined_fatal _ _ _ _ _ _ _ Hskip Hreg Hjoin Hcode Hbot).
      now apply join_fatal.
Qed.

Lemma registered_returns_cases json_loads respond (s s1 : state) :
  _ensure_registered json_loads respond s = (Return tt, s1) ->
  s1 = s \/ s1 = marked_registered (logged (registration (self s)) s).
Proof.
  intros Hrun. pose proof (ensure_registered_run json_loads respond s) as R.
  rewrite Hrun in R. inversion R; subst; [now left | now right].
Qed.

Lemma registered_raises_cases json_loads respond (s s1 : state) (e : exn) :
  _ensure_registered json_loads respond s = (Raise e, s1) ->
  s1 = logged (registration (self s)) s /\
  exists source, e = IntentError ("Failed to register " +:+ IntentAPI.mxid (self s)) source.
Proof.
  intros Hrun. pose proof (ensure_registered_run json_loads respond s) as R.
  rewrite Hrun in R. inversion R; subst. split; [reflexivity | eauto].
Qed.

Lemma memberships_get_joined (room_id : string) (i : IntentAPI.t) :
  memberships_get (IntentAPI.set_membership room_id "join" i) room_id = "join".
Proof.
  unfold memberships_get. cbn [IntentAPI.set_membership IntentAPI.memberships].
  now rewrite lookup_insert_eq.
Qed.

(** X5: when [_ensure_joined] returns, the memberships record the room as
    "join"; a run that skipped left the state as it was, and a run that did
    not skip left the intent registered. *)
Theorem ensure_joined_returns_joined json_loads respond (room_id : string)
    (ignore_cache : bool) (s s' : state) :
  _ensure_joined json_loads respond room_id ignore_cache s = (Return tt, s') ->
  memberships_get (self s') room_id = "join" /\
  (skips (self s) room_id ignore_cache = true -> s' = s) /\
  (skips (self s) room_id ignore_cache = false ->
     IntentAPI.registered (self s') = true).
Proof.
  intros Hrun.
  pose proof (ensure_joined_run json_loads respond room_id ignore_cache s) as R.
  rewrite Hrun in R.
  inversion R as [Hskip | | s1 Hskip Hreg | | | | | s1 b Hskip Hreg Hbot]; subst.
  - split; [| split; [reflexivity | congruence]].
    unfold skips in Hskip. apply andb_true_iff in Hskip as [_ Hskip].
    now apply String.eqb_eq in Hskip.
  - split; [apply memberships_get_joined | split; [congruence |]].
    intros _. apply (ensure_registered_returns _ _ _ _ Hreg).
  - split; [apply memberships_get_joined | split; [congruence |]].
    intros _. apply (ensure_registered_returns _ _ _ _ Hreg).
Qed.

(** alice joins an open room. *)
Lemma ensure_joined_returns_joined_witness :
  memberships_get
    (self (snd (_ensure_joined json_loads_sample server_open "!room:example.org" false
                  (initially alice))))
    "!room:example.org" = "join".
Proof.
  destruct (_ensure_joined json_loads_sample server_open "!room:example.org" false
              (initially alice)) as [r s'] eqn:Hrun.
  assert (r = Return tt) as -> by (vm_compute in Hrun; congruence).
  exact (proj1 (ensure_joined_returns_joined _ _ _ _ _ _ Hrun)).
Defined.

(** X6: [_ensure_joined] never lets a MatrixRequestError out: whatever it
    raises is not one.  An IntentError it raises has the message of the
    registration or the message that names the room and the mxid.  And
    when it raises, the memberships are as they were. *)
Theorem ensure_joined_raises json_loads respond (room_id : string)
    (ignore_cache : bool) (s s' : state) (e : exn) :
  _ensure_joined json_loads respond room_id ignore_cache s = (Raise e, s') ->
  (forall failure, e <> RequestError failure) /\
  (forall message source,
     e = IntentError message source ->
     message = "Failed to register " +:+ IntentAPI.mxid (self s) \/
     message = "Failed to join room " +:+ room_id +:+ " as " +:+ IntentAPI.mxid (self s)) /\
  IntentAPI.memberships (self s') = IntentAPI.memberships (self s).
Proof.
  intros Hrun.
  pose proof (ensure_joined_run json_loads respond room_id ignore_cache s) as R.
  rewrite Hrun in R.
  inversion R as [| e0 s1 Hskip Hreg | | s1 e0 Hskip Hreg Hbot Hcode
                  | s1 Hskip Hreg Hbot | s1 b e2 Hskip Hreg Hbot
                  | s1 b e3 Hskip Hreg Hbot |]; subst.
  - destruct (registered_raises_cases _ _ _ _ _ Hreg) as [-> [source0 ->]].
    split; [discriminate | split; [| reflexivity]].
    intros message source [= <- _]. now left.
  - split; [discriminate | split].
    + intros message source [= <- _]. now right.
    + now destruct (registered_returns_cases _ _ _ _ Hreg) as [-> | ->].
  - split; [discriminate | split; [discriminate |]].
    now destruct (registered_returns_cases _ _ _ _ Hreg) as [-> | ->].
  - split; [discriminate | split].
    + intros message source [= <- _]. now right.
    + now destruct (registered_returns_cases _ _ _ _ Hreg) as [-> | ->].
  - split; [discriminate | split].
    + intros message source [= <- _]. now right.
    + now destruct (registered_returns_cases _ _ _ _ Hreg) as [-> | ->].
Qed.

(** alice is refused by a server on which every join is forbidden. *)
Lemma ensure_joined_raises_witness :
  exists source s',
    _ensure_joined json_loads_sample server_closed "!room:example.org" false (initially alice) =
      (Raise (IntentError "Failed to join room !room:example.org as @alice:example.org" source),
       s') /\
    IntentAPI.memberships (self s') = empty.
Proof.
  destruct (_ensure_joined json_loads_sample server_closed "!room:example.org" false
              (initially alice)) as [r s'] eqn:Hrun.
  assert (r = Raise (IntentError "Failed to join room !room:example.org as @alice:example.org"
                       (matrix_error 403 "M_FORBIDDEN"))) as ->
    by (vm_compute in Hrun; injection Hrun as <- _; reflexivity).
  exists (matrix_error 403 "M_FORBIDDEN"), s'. split; [reflexivity |].
  exact (proj2 (proj2 (ensure_joined_raises _ _ _ _ _ _ _ Hrun))).
Defined.

Lemma logged_calls (c : call) (s : state) : calls (logged c s) = calls s ++ [c].
Proof. reflexivity. Qed.

(** X7: the requests of one run of [_ensure_joined] are, in this order, at
    most the registration, then a beginning of: join_room, the bot's
    invite_user, join_room (of join_room alone on an intent without a bot).
    So a run makes at most four requests, never invites twice and never
    joins a third time. *)
Theorem ensure_joined_requests json_loads respond (room_id : string)
    (ignore_cache : bool) (s : state) :
  let s' := snd (_ensure_joined json_loads respond room_id ignore_cache s) in
  exists reg attempt,
    calls s' = calls s ++ reg ++ attempt /\
    (reg = [] \/ reg = [registration (self s)]) /\
    attempt `prefix_of` join_requests (self s) room_id /\
    length (calls s') <= length (calls s) + 4.
Proof.
  cbv zeta.
  assert (Hbound : forall reg attempt,
            (reg = [] \/ reg = [registration (self s)]) ->
            attempt `prefix_of` join_requests (self s) room_id ->
            length (calls s ++ reg ++ attempt) <= length (calls s) + 4).
  { intros reg attempt Hreg Hatt. apply prefix_length in Hatt.
    rewrite !length_app.
    assert (length (join_requests (self s) room_id) <= 3)
      by (unfold join_requests; destruct (IntentAPI.bot (self s)); cbn; lia).
    destruct Hreg as [-> | ->]; cbn [length]; lia. }
  assert (Hcases : forall s1, _ensure_registered json_loads respond s = (Return tt, s1) ->
            exists reg, calls s1 = calls s ++ reg /\ (reg = [] \/ reg = [registration (self s)])).
  { intros s1 Hreg. destruct (registered_returns_cases _ _ _ _ Hreg) as [-> | ->].
    - exists []. now rewrite app_nil_r; split; [| left].
    - exists [registration (self s)]. split; [reflexivity | now right]. }
  assert (Hgoal : forall (l : list call) reg attempt,
            l = calls s ++ reg ++ attempt ->
            (reg = [] \/ reg = [registration (self s)]) ->
            attempt `prefix_of` join_requests (self s) room_id ->
            exists reg attempt,
              l = calls s ++ reg ++ attempt /\
              (reg = [] \/ reg = [registration (self s)]) /\
              attempt `prefix_of` join_requests (self s) room_id /\
              length l <= length (calls s) + 4).
  { intros l reg attempt Heq Hreg Hatt. exists reg, attempt.
    repeat split; try assumption. rewrite Heq. now apply Hbound. }
  destruct (ensure_joined_run json_loads respond room_id ignore_cache s)
    as [Hskip | e0 s1 Hskip Hreg | s1 Hskip Hreg | s1 e0 Hskip Hreg Hbot Hcode
        | s1 Hskip Hreg Hbot | s1 b e2 Hskip Hreg Hbot
        | s1 b e3 Hskip Hreg Hbot | s1 b Hskip Hreg Hbot];
    cbn [snd joined calls]; rewrite ?logged_calls.
  - apply (Hgoal _ [] []); [now rewrite !app_nil_r | now left | apply prefix_nil].
  - destruct (registered_raises_cases _ _ _ _ _ Hreg) as [-> _].
    apply (Hgoal _ [registration (self s)] []);
      [now rewrite app_nil_r | now right | apply prefix_nil].
  - destruct (Hcases s1 Hreg) as (reg & -> & Hr).
    apply (Hgoal _ reg [join_call (self s) room_id]);
      [now rewrite <- app_assoc | assumption |].
    unfold join_requests. destruct (IntentAPI.bot (self s)); [| reflexivity].
    now exists [invite_call l (self s) room_id; join_call (self s) room_id].
  - destruct (Hcases s1 Hreg) as (reg & -> & Hr).
    apply (Hgoal _ reg [join_call (self s) room_id]);
      [now rewrite <- app_assoc | assumption |].
    unfold join_requests. now rewrite Hbot.
  - destruct (Hcases s1 Hreg) as (reg & -> & Hr).
    apply (Hgoal _ reg [join_call (self s) room_id]);
      [now rewrite <- app_assoc | assumption |].
    unfold join_requests. now rewrite Hbot.
  - destruct (Hcases s1 Hreg) as (reg & -> & Hr).
    apply (Hgoal _ reg [join_call (self s) room_id; invite_call b (self s) room_id]);
      [now rewrite <- !app_assoc | assumption |].
    unfold join_requests. rewrite Hbot. now exists [join_call (self s) room_id].
  - destruct (Hcases s1 Hreg) as (reg & -> & Hr).
    apply (Hgoal _ reg (join_requests (self s) room_id)); [| assumption | reflexivity].
    unfold join_requests. rewrite Hbot. now rewrite <- !app_assoc.
  - destruct (Hcases s1 Hreg) as (reg & -> & Hr).
    apply (Hgoal _ reg (join_requests (self s) room_id)); [| assumption | reflexivity].
    unfold join_requests. rewrite Hbot. now rewrite <- !app_assoc.
Qed.

Lemma same_intent_refl (i : IntentAPI.t) : same_intent i i.
Proof. repeat split. Qed.

Lemma caches_grow_refl (room_id : string) (i : IntentAPI.t) : caches_grow room_id i i.
Proof. split; [easy | split; [easy | now left]]. Qed.

Lemma caches_grow_same (room_id : string) (i i1 : IntentAPI.t) :
  (IntentAPI.registered i = true -> IntentAPI.registered i1 = true) ->
  IntentAPI.memberships i1 = IntentAPI.memberships i ->
  caches_grow room_id i i1.
Proof.
  intros Hflag Hmem. split; [exact Hflag |]. rewrite Hmem. split; [easy | now left].
Qed.

Lemma caches_grow_joined (room_id : string) (i i1 : IntentAPI.t) :
  (IntentAPI.registered i = true -> IntentAPI.registered i1 = true) ->
  IntentAPI.memberships i1 = IntentAPI.memberships i ->
  caches_grow room_id i (IntentAPI.set_membership room_id "join" i1).
Proof.
  intros Hflag Hmem. split; [exact Hflag | split].
  - intros r Hr. cbn [IntentAPI.set_membership IntentAPI.memberships].
    rewrite lookup_insert_ne by congruence. now rewrite Hmem.
  - right. cbn [IntentAPI.set_membership IntentAPI.memberships]. apply lookup_insert_eq.
Qed.

Lemma registered_frame json_loads respond (s s1 : state) (r : outcome unit) :
  _ensure_registered json_loads respond s = (r, s1) ->
  same_intent (self s) (self s1) /\
  (IntentAPI.registered (self s) = true -> IntentAPI.registered (self s1) = true) /\
  IntentAPI.memberships (self s1) = IntentAPI.memberships (self s).
Proof.
  intros Hrun. pose proof (ensure_registered_run json_loads respond s) as R.
  rewrite Hrun in R.
  inversion R; subst; unfold same_intent; cbn; repeat split; auto.
Qed.

(** X8: [_ensure_joined] leaves the client, the bot, the mxid, the log, the
    local part and the power levels of the intent as they are; it never
    resets the registered flag; and in the memberships it changes at most
    the entry of its room, to "join".  This holds whether it returns or
    raises. *)
Theorem ensure_joined_frame json_loads respond (room_id : string)
    (ignore_cache : bool) (s : state) :
  let s' := snd (_ensure_joined json_loads respond room_id ignore_cache s) in
  same_intent (self s) (self s') /\ caches_grow room_id (self s) (self s').
Proof.
  cbv zeta.
  destruct (ensure_joined_run json_loads respond room_id ignore_cache s)
    as [Hskip | e0 s1 Hskip Hreg | s1 Hskip Hreg | s1 e0 Hskip Hreg Hbot Hcode
        | s1 Hskip Hreg Hbot | s1 b e2 Hskip Hreg Hbot
        | s1 b e3 Hskip Hreg Hbot | s1 b Hskip Hreg Hbot];
    cbn [snd joined logged self];
    try (split; [apply same_intent_refl | apply caches_grow_refl]);
    destruct (registered_frame _ _ _ _ _ Hreg) as (Hsame & Hflag & Hmem).
  - split; [exact Hsame | now apply caches_grow_same].
  - split; [exact Hsame | now apply caches_grow_joined].
  - split; [exact Hsame | now apply caches_grow_same].
  - split; [exact Hsame | now apply caches_grow_same].
  - split; [exact Hsame | now apply caches_grow_same].
  - split; [exact Hsame | now apply caches_grow_same].
  - split; [exact Hsame | now apply caches_grow_joined].
Qed.

(** X9: when the first join_room goes through, the run is over after that
    one request: the bot is not asked, the room is recorded as "join" and
    the other memberships stay. *)
Theorem first_join_needs_no_invite json_loads respond (room_id : string)
    (ignore_cache : bool) (s s1 : state) (v : json) :
  skips (self s) room_id ignore_cache = false ->
  _ensure_registered json_loads respond s = (Return tt, s1) ->
  respond (calls s1) (join_call (self s) room_id) = inr v ->
  exists s',
    _ensure_joined json_loads respond room_id ignore_cache s = (Return tt, s') /\
    calls s' = calls s1 ++ [join_call (self s) room_id] /\
    IntentAPI.memberships (self s') =
      <[room_id := "join"]> (IntentAPI.memberships (self s)).
Proof.
  intros Hskip Hreg Hjoin. eexists. split; [| split].
  - exact (ensure_joined_first_try _ _ _ _ _ _ _ Hskip Hreg Hjoin).
  - reflexivity.
  - cbn. now destruct (registered_returns_cases _ _ _ _ Hreg) as [-> | ->].
Qed.

(** alice, already registered, joins an open room. *)
Lemma first_join_needs_no_invite_witness :
  exists s',
    _ensure_joined json_loads_sample server_open "!room:example.org" false
      (initially (IntentAPI.set_registered true alice)) = (Return tt, s') /\
    calls s' = [Client.join_room 1 "!room:example.org"] /\
    IntentAPI.memberships (self s') = {[ "!room:example.org" := "join" ]}.
Proof.
  exact (first_join_needs_no_invite json_loads_sample server_open "!room:example.org" false
           (initially (IntentAPI.set_registered true alice))
           (initially (IntentAPI.set_registered true alice)) (JDict empty)
           eq_refl eq_refl eq_refl).
Defined.

(** X10: on an intent without a bot, a join_room that fails with a code
    other than M_FORBIDDEN is raised at once as IntentError, with the message
    naming the room and the mxid and the failure as its source; nothing is
    requested after it and the memberships stay. *)
Theorem join_failure_without_bot json_loads respond (room_id : string)
    (ignore_cache : bool) (s s1 : state) (e : MatrixRequestError) :
  skips (self s) room_id ignore_cache = false ->
  _ensure_registered json_loads respond s = (Return tt, s1) ->
  respond (calls s1) (join_call (self s) room_id) = inl e ->
  json_eq_str (matrix_error_code json_loads e) "M_FORBIDDEN" = false ->
  IntentAPI.bot (self s) = None ->
  exists s',
    _ensure_joined json_loads respond room_id ignore_cache s =
      (Raise (IntentError
                ("Failed to join room " +:+ room_id +:+ " as " +:+ IntentAPI.mxid (self s)) e),
       s') /\
    calls s' = calls s1 ++ [join_call (self s) room_id] /\
    IntentAPI.memberships (self s') = IntentAPI.memberships (self s).
Proof.
  intros Hskip Hreg Hjoin Hcode Hbot. eexists. split; [| split].
  - exact (ensure_joined_fatal _ _ _ _ _ _ _ Hskip Hreg Hjoin Hcode Hbot).
  - reflexivity.
  - cbn. now destruct (registered_returns_cases _ _ _ _ Hreg) as [-> | ->].
Qed.

(** The bot's own intent on a server whose joins fail with M_UNKNOWN. *)
Lemma join_failure_without_bot_witness :
  exists s',
    _ensure_joined json_loads_sample server_broken_join "!room:example.org" true
      (initially bridge_bot) =
      (Raise (IntentError "Failed to join room !room:example.org as @bridge:example.org"
                (matrix_error 500 "M_UNKNOWN")), s') /\
    calls s' = [registration bridge_bot; Client.join_room 0 "!room:example.org"] /\
    IntentAPI.memberships (self s') = empty.
Proof.
  exact (join_failure_without_bot json_loads_sample server_broken_join "!room:example.org"
           true (initially bridge_bot)
           (marked_registered (logged (registration bridge_bot) (initially bridge_bot)))
           (matrix_error 500 "M_UNKNOWN") eq_refl eq_refl eq_refl eq_refl eq_refl).
Defined.

(** X11: when the registration fails, [_ensure_joined] passes its
    IntentError on as it is and stops: the only request made is the
    registration, no join_room is attempted, and the intent is unchanged. *)
Theorem failed_registration_stops_join json_loads respond (room_id : string)
    (ignore_cache : bool) (s s1 : state) (e : exn) :
  skips (self s) room_id ignore_cache = false ->
  _ensure_registered json_loads respond s = (Raise e, s1) ->
  _ensure_joined json_loads respond room_id ignore_cache s = (Raise e, s1) /\
  calls s1 = calls s ++ [registration (self s)] /\
  self s1 = self s /\
  exists source, e = IntentError ("Failed to register " +:+ IntentAPI.mxid (self s)) source.
Proof.
  intros Hskip Hreg.
  destruct (registered_raises_cases _ _ _ _ _ Hreg) as [-> Hsource].
  split; [| now repeat split].
  exact (ensure_joined_unregistered _ _ _ _ _ _ _ Hskip Hreg).
Qed.

(** alice on a server that refuses registrations. *)
Lemma failed_registration_stops_join_witness :
  _ensure_joined json_loads_sample server_register_fails "!room:example.org" false
    (initially alice) =
    (Raise (IntentError "Failed to register @alice:example.org" (matrix_error 500 "M_UNKNOWN")),
     logged (registration alice) (initially alice)).
Proof.
  exact (proj1 (failed_registration_stops_join json_loads_sample server_register_fails
                  "!room:example.org" false (initially alice)
                  (logged (registration alice) (initially alice))
                  (IntentError "Failed to register @alice:example.org"
                     (matrix_error 500 "M_UNKNOWN"))
                  eq_refl eq_refl)).
Defined.

(** ** Sending *)

Lemma ensure_joined_wraps json_loads respond (room_id : string) (ignore_cache : bool)
    (s s' : state) (e : MatrixRequestError) :
  _ensure_joined json_loads respond room_id ignore_cache s <> (Raise (RequestError e), s').
Proof.
  intros Hrun.
  pose proof (ensure_joined_run json_loads respond room_id ignore_cache s) as R.
  rewrite Hrun in R.
  inversion R as [| e0 s1 Hskip Hreg | | | | | |]; subst.
  destruct (registered_raises_cases _ _ _ _ _ Hreg) as [_ [source Hsource]].
  discriminate.
Qed.

Lemma ensure_registered_wraps json_loads respond (s s' : state) (e : MatrixRequestError) :
  _ensure_registered json_loads respond s <> (Raise (RequestError e), s').
Proof.
  intros Hrun. destruct (registered_raises_cases _ _ _ _ _ Hrun) as [_ [source Hsource]].
  discriminate.
Qed.

(** A request made after a guard that wraps its own failures. *)
Lemma guarded_request respond (guard : M unit) (c : call) (s : state) :
  (forall e s', guard s <> (Raise (RequestError e), s')) ->
  let run := (do _ <- guard; request respond c) s in
  match fst run with
  | Return v =>
      exists s1, guard s = (Return tt, s1) /\
                 respond (calls s1) c = inr v /\ snd run = logged c s1
  | Raise (RequestError e) =>
      exists s1, guard s = (Return tt, s1) /\
                 respond (calls s1) c = inl e /\ snd run = logged c s1
  | Raise e => guard s = (Raise e, snd run)
  end.
Proof.
  intros Hwraps. cbv zeta. unfold bind.
  destruct (guard s) as [[[]|e] s1] eqn:Hguard.
  - unfold request. destruct (respond (calls s1) c) as [e|v] eqn:Hc; cbn [fst snd];
      exists s1; now repeat split.
  - cbn [fst snd]. destruct e; try reflexivity. now destruct (Hwraps e s1).
Qed.

(** X12: [send_event] sends the event exactly when the join guard returns,
    as the one request after the guard's, and passes the answer on.  A
    MatrixRequestError of the send itself leaves unwrapped; an exception of
    the guard leaves as it is, with nothing sent. *)
Theorem send_event_outcomes json_loads respond (room_id type : string) (body : json)
    (txn_id timestamp : option Z) (s : state) :
  let send := Client.send_message_event (IntentAPI.client (self s)) room_id type body
                txn_id timestamp in
  let guard := _ensure_joined json_loads respond room_id false in
  let run := send_event json_loads respond room_id type body txn_id timestamp s in
  match fst run with
  | Return v =>
      exists s1, guard s = (Return tt, s1) /\
                 respond (calls s1) send = inr v /\ snd run = logged send s1
  | Raise (RequestError e) =>
      exists s1, guard s = (Return tt, s1) /\
                 respond (calls s1) send = inl e /\ snd run = logged send s1
  | Raise e => guard s = (Raise e, snd run)
  end.
Proof.
  cbv zeta.
  apply (guarded_request respond (_ensure_joined json_loads respond room_id false)).
  intros e s'. apply ensure_joined_wraps.
Qed.

(** X13: [send_state_event] does the same with the client's
    send_state_event. *)
Theorem send_state_event_outcomes json_loads respond (room_id type : string) (body : json)
    (state_key : string) (timestamp : option Z) (s : state) :
  let send := Client.send_state_event (IntentAPI.client (self s)) room_id type body
                state_key timestamp in
  let guard := _ensure_joined json_loads respond room_id false in
  let run := send_state_event json_loads respond room_id type body state_key timestamp s in
  match fst run with
  | Return v =>
      exists s1, guard s = (Return tt, s1) /\
                 respond (calls s1) send = inr v /\ snd run = logged send s1
  | Raise (RequestError e) =>
      exists s1, guard s = (Return tt, s1) /\
                 respond (calls s1) send = inl e /\ snd run = logged send s1
  | Raise e => guard s = (Raise e, snd run)
  end.
Proof.
  cbv zeta.
  apply (guarded_request respond (_ensure_joined json_loads respond room_id false)).
  intros e s'. apply ensure_joined_wraps.
Qed.

(** X14: [set_display_name] asks the client to set the name of the intent's
    own mxid exactly when the registration guard returns, and passes the
    answer on; a MatrixRequestError of that request leaves unwrapped, and
    after a failed registration nothing is requested. *)
Theorem set_display_name_outcomes json_loads respond (name : string) (s : state) :
  let set := Client.set_display_name (IntentAPI.client (self s))
               (IntentAPI.mxid (self s)) name in
  let guard := _ensure_registered json_loads respond in
  let run := set_display_name json_loads respond name s in
  match fst run with
  | Return v =>
      exists s1, guard s = (Return tt, s1) /\
                 respond (calls s1) set = inr v /\ snd run = logged set s1
  | Raise (RequestError e) =>
      exists s1, guard s = (Return tt, s1) /\
                 respond (calls s1) set = inl e /\ snd run = logged set s1
  | Raise e => guard s = (Raise e, snd run)
  end.
Proof.
  cbv zeta.
  apply (guarded_request respond (_ensure_registered json_loads respond)).
  intros e s'. apply ensure_registered_wraps.
Qed.

Lemma ensure_joined_after_registration json_loads respond (room_id : string)
    (ignore_cache : bool) (s : state) :
  skips (self s) room_id ignore_cache = false ->
  calls (snd (_ensure_registered json_loads respond s)) `prefix_of`
    calls (snd (_ensure_joined json_loads respond room_id ignore_cache s)).
Proof.
  intros Hskip.
  destruct (ensure_joined_run json_loads respond room_id ignore_cache s)
    as [Hskip' | e0 s1 _ Hreg | s1 _ Hreg | s1 e0 _ Hreg Hbot Hcode
        | s1 _ Hreg Hbot | s1 b e2 _ Hreg Hbot
        | s1 b e3 _ Hreg Hbot | s1 b _ Hreg Hbot];
    [congruence | rewrite Hreg ..]; cbn [snd joined calls]; rewrite ?logged_calls.
  - reflexivity.
  - now apply prefix_app_r.
  - now apply prefix_app_r.
  - now apply prefix_app_r.
  - now do 2 apply prefix_app_r.
  - now do 3 apply prefix_app_r.
  - now do 3 apply prefix_app_r.
Qed.

Lemma init_fresh (mxid : string) (client : loc) (bot log : option loc) (i : IntentAPI.t) :
  IntentAPI.init mxid client bot log = Return i ->
  IntentAPI.client i = client /\ IntentAPI.bot i = bot /\ IntentAPI.mxid i = mxid /\
  IntentAPI.log i = log /\ IntentAPI.memberships i = empty /\
  IntentAPI.power_levels i = empty /\ IntentAPI.registered i = false.
Proof.
  unfold IntentAPI.init. destruct (Regex.search mxid_regex mxid); [| discriminate].
  intros [= <-]. now repeat split.
Qed.

(** X15: the first request of a newly constructed intent is its
    registration, with the local part of its mxid as username, whichever
    of [join_room], [send_event] and [set_display_name] is called first:
    a new intent is not registered and has no room recorded. *)
Theorem new_intent_registers_first json_loads respond (mxid : string) (client : loc)
    (bot log : option loc) (i : IntentAPI.t) :
  IntentAPI.init mxid client bot log = Return i ->
  let first := Client.register client {[ "username" := IntentAPI.localpart i ]} in
  (forall room_id,
     exists rest,
       calls (snd (join_room json_loads respond room_id (initially i))) = first :: rest) /\
  (forall room_id type body txn_id timestamp,
     exists rest,
       calls (snd (send_event json_loads respond room_id type body txn_id timestamp
                     (initially i))) = first :: rest) /\
  (forall name,
     exists rest,
       calls (snd (set_display_name json_loads respond name (initially i))) = first :: rest).
Proof.
  intros Hinit. cbv zeta.
  destruct (init_fresh _ _ _ _ _ Hinit) as (Hclient & _ & _ & _ & Hmem & _ & Hflag).
  assert (Hfirst : calls (snd (_ensure_registered json_loads respond (initially i))) =
            [Client.register client {[ "username" := IntentAPI.localpart i ]}]).
  { rewrite ensure_registered_attempts by exact Hflag.
    unfold registration. cbn [initially self calls app]. now rewrite Hclient. }
  assert (Hguard : forall room_id ignore_cache,
            exists rest,
              calls (snd (_ensure_joined json_loads respond room_id ignore_cache (initially i)))
              = Client.register client {[ "username" := IntentAPI.localpart i ]} :: rest).
  { intros room_id ignore_cache.
    destruct (ensure_joined_after_registration json_loads respond room_id ignore_cache
                (initially i)) as [rest Hrest].
    - unfold skips, memberships_get. cbn [initially self]. rewrite Hmem, lookup_empty.
      apply andb_false_r.
    - rewrite Hfirst in Hrest. now exists rest. }
  split; [| split].
  - intros room_id. apply Hguard.
  - intros room_id type body txn_id timestamp.
    destruct (Hguard room_id false) as [rest Hrest].
    pose proof (send_event_unfolds := guarded_request respond
                  (_ensure_joined json_loads respond room_id false)
                  (Client.send_message_event (IntentAPI.client i) room_id type body
                     txn_id timestamp)
                  (initially i) (fun e s' => ensure_joined_wraps _ _ _ _ _ s' e)).
    cbv zeta in send_event_unfolds.
    change ((do _ <- _ensure_joined json_loads respond room_id false;
             request respond (Client.send_message_event (IntentAPI.client i) room_id type
                                body txn_id timestamp)) (initially i))
      with (send_event json_loads respond room_id type body txn_id timestamp (initially i))
      in send_event_unfolds.
    destruct (send_event json_loads respond room_id type body txn_id timestamp (initially i))
      as [[v|e] s'].
    + destruct send_event_unfolds as (s1 & Hs1 & _ & ->). rewrite Hs1 in Hrest.
      cbn [fst snd] in *. rewrite logged_calls, Hrest. now eexists.
    + cbn [fst snd] in *.
      destruct e; try (rewrite send_event_unfolds in Hrest; now exists rest).
      destruct send_event_unfolds as (s1 & Hs1 & _ & ->). rewrite Hs1 in Hrest.
      cbn [snd] in Hrest. rewrite logged_calls, Hrest. now eexists.
  - intros name.
    pose proof (unfolds := guarded_request respond
                  (_ensure_registered json_loads respond)
                  (Client.set_display_name (IntentAPI.client i) (IntentAPI.mxid i) name)
                  (initially i) (fun e s' => ensure_registered_wraps _ _ _ s' e)).
    cbv zeta in unfolds.
    change ((do _ <- _ensure_registered json_loads respond;
             request respond (Client.set_display_name (IntentAPI.client i)
                                (IntentAPI.mxid i) name)) (initially i))
      with (set_display_name json_loads respond name (initially i)) in unfolds.
    destruct (set_display_name json_loads respond name (initially i)) as [[v|e] s'].
    + destruct unfolds as (s1 & Hs1 & _ & ->). rewrite Hs1 in Hfirst.
      cbn [fst snd] in *. rewrite logged_calls, Hfirst. now eexists.
    + cbn [fst snd] in *.
      destruct e; try (rewrite unfolds in Hfirst; exists []; exact Hfirst).
      destruct unfolds as (s1 & Hs1 & _ & ->). rewrite Hs1 in Hfirst.
      cbn [snd] in Hfirst. rewrite logged_calls, Hfirst. now eexists.
Qed.

(** alice as the constructor makes her. *)
Lemma new_intent_registers_first_witness :
  exists rest,
    calls (snd (send_event json_loads_sample server_open "!room:example.org" "m.room.message"
                  (JDict empty) None None (initially alice))) =
      Client.register 1 {[ "username" := "alice" ]} :: rest.
Proof.
  exact (proj1 (proj2 (new_intent_registers_first json_loads_sample server_open
                         "@alice:example.org" 1 (Some 0) None alice eq_refl))
           "!room:example.org" "m.room.message" (JDict empty) None None).
Defined.

(** ** The constructor and the error code *)

(** X3: an intent the constructor returns has the client, bot, mxid and log
    it was given, no room recorded, no power level and the registered flag
    off; its local part is not empty, has no newline, and stands in the mxid
    between an at sign and a colon that is followed by at least one more
    character of the same line. *)
Theorem init_result (mxid : string) (client : loc) (bot log : option loc)
    (i : IntentAPI.t) :
  IntentAPI.init mxid client bot log = Return i ->
  (IntentAPI.client i = client /\ IntentAPI.bot i = bot /\ IntentAPI.mxid i = mxid /\
   IntentAPI.log i = log /\ IntentAPI.memberships i = empty /\
   IntentAPI.power_levels i = empty /\ IntentAPI.registered i = false) /\
  IntentAPI.localpart i <> EmptyString /\
  one_line (IntentAPI.localpart i) = true /\
  exists pre domain post,
    mxid = pre +:+ "@" +:+ IntentAPI.localpart i +:+ ":" +:+ domain +:+ post /\
    domain <> EmptyString /\ one_line domain = true.
Proof.
  intros Hinit. split; [now apply init_fresh in Hinit |].
  unfold IntentAPI.init in Hinit.
  destruct (Regex.search mxid_regex mxid) as [gs|] eqn:Hs; [| discriminate].
  injection Hinit as <-. cbn [IntentAPI.localpart].
  apply search_sound in Hs as (pre & suf & -> & Hm).
  apply mxid_regex_sound in Hm as (l & d & post & -> & -> & Hl & Hd & Hll & Hld).
  cbn [Regex.group1 nth]. split; [exact Hl | split; [exact Hll |]].
  now exists pre, d, post.
Qed.

(** The intent of @alice:example.org. *)
Lemma init_result_witness :
  exists i,
    IntentAPI.init "@alice:example.org" 1 (Some 0) None = Return i /\
    IntentAPI.localpart i <> EmptyString /\ IntentAPI.registered i = false.
Proof.
  exists alice.
  pose proof (init_result "@alice:example.org" 1 (Some 0) None alice eq_refl)
    as ((_ & _ & _ & _ & _ & _ & Hflag) & Hlocal & _).
  split; [reflexivity | split; [exact Hlocal | exact Hflag]].
Defined.

(** X4: [matrix_error_code] equals the str [c] in exactly two cases: the
    response text decodes to a JSON object whose errcode is the str [c]; or
    the text does not decode to an object with an errcode (it is no JSON,
    it is JSON of another kind, or the key is missing) and the text itself
    is [c]. *)
Theorem matrix_error_code_is (json_loads : string -> option json)
    (e : MatrixRequestError) (c : string) :
  json_eq_str (matrix_error_code json_loads e) c = true <->
  (exists d, json_loads (content e) = Some (JDict d) /\ d !! "errcode" = Some (JStr c)) \/
  ((forall d, json_loads (content e) = Some (JDict d) -> d !! "errcode" = None) /\
   content e = c).
Proof.
  unfold matrix_error_code.
  destruct (json_loads (content e)) as [[| | | | | |d]|] eqn:Hload;
    try (cbn [json_eq_str]; rewrite String.eqb_eq; split;
         [intros ->; right; split; [intros d' [=] | reflexivity]
         | intros [(d' & [=] & _) | [_ ->]]; reflexivity]).
  destruct (d !! "errcode") as [v|] eqn:Hcode.
  - split.
    + destruct v; cbn [json_eq_str]; try discriminate.
      rewrite String.eqb_eq. intros ->. left. now exists d.
    + intros [(d' & [= <-] & Hd') | [Hnone _]].
      * rewrite Hcode in Hd'. injection Hd' as ->. cbn. apply String.eqb_refl.
      * specialize (Hnone d eq_refl). congruence.
  - cbn [json_eq_str]. rewrite String.eqb_eq. split.
    + intros ->. right. split; [| reflexivity]. intros d' [= <-]. exact Hcode.
    + intros [(d' & [= <-] & Hd') | [_ ->]]; [congruence | reflexivity].
Qed.

(** ** More on the connection objects *)

Lemma user_root_after (h h1 : heap) (self child : loc) (r : HTTPAPI.t) (user : string) :
  h !! self = Some (Root r) ->
  HTTPAPI_user self user h = Some (Return child, h1) ->
  exists r1,
    h1 !! self = Some (Root r1) /\
    HTTPAPI.children r1 !! user = Some child /\
    HTTPAPI.children r ⊆ HTTPAPI.children r1 /\
    same_settings r r1 /\
    (forall l, l <> self -> l < length h -> h1 !! l = h !! l) /\
    length h <= length h1 <= S (length h).
Proof.
  intros Hself Hrun.
  destruct (HTTPAPI.children r !! user) as [k|] eqn:Hk.
  - rewrite (user_cached h self k r user Hself Hk) in Hrun. injection Hrun as <- <-.
    exists r. repeat split; try assumption; try reflexivity; lia.
  - rewrite (user_created h self r user Hself Hk) in Hrun. injection Hrun as <- <-.
    exists (HTTPAPI.set_child user (length h) r). repeat split.
    + now apply created_lookup_self with (r := r).
    + apply lookup_insert_eq.
    + now apply insert_subseteq.
    + intros l Hne Hlt. now apply created_lookup_old.
    + rewrite length_insert, length_app. lia.
    + rewrite length_insert, length_app. cbn. lia.
Qed.

Lemma user_returns (h : heap) (self : loc) (r : HTTPAPI.t) (user : string) :
  h !! self = Some (Root r) ->
  exists child h1, HTTPAPI_user self user h = Some (Return child, h1).
Proof.
  intros Hself. destruct (HTTPAPI.children r !! user) as [k|] eqn:Hk.
  - exists k, h. now apply user_cached with (r := r).
  - eexists _, _. exact (user_created h self r user Hself Hk).
Qed.

(** X16: [HTTPAPI.intent] makes the context before the constructor
    checks the identifier.  For an identifier without the pattern and
    without a context so far, it raises ValueError and still leaves a new
    ChildHTTPAPI in the heap, recorded under the identifier in the children
    dict; calling again raises again and adds no further object. *)
Theorem intent_of_malformed_caches_context (h : heap) (self : loc) (r : HTTPAPI.t)
    (user : string) :
  h !! self = Some (Root r) ->
  HTTPAPI.children r !! user = None ->
  Regex.search mxid_regex user = None ->
  exists h1 r1,
    HTTPAPI_intent self user h = Some (Raise (ValueError "invalid MXID"), h1) /\
    length h1 = S (length h) /\
    h1 !! length h = Some (Child (derived user self r)) /\
    h1 !! self = Some (Root r1) /\
    HTTPAPI.children r1 !! user = Some (length h) /\
    HTTPAPI_intent self user h1 = Some (Raise (ValueError "invalid MXID"), h1).
Proof.
  intros Hself Hnew Hbad.
  pose proof (user_created h self r user Hself Hnew) as Hrun.
  set (h1 := <[self := Root (HTTPAPI.set_child user (length h) r)]>
               (h ++ [Child (derived user self r)])) in *.
  assert (Hself1 : h1 !! self = Some (Root (HTTPAPI.set_child user (length h) r)))
    by (now apply created_lookup_self with (r := r)).
  assert (Hagain : HTTPAPI_user self user h1 = Some (Return (length h), h1)).
  { apply user_cached with (r := HTTPAPI.set_child user (length h) r);
      [exact Hself1 | apply lookup_insert_eq]. }
  exists h1, (HTTPAPI.set_child user (length h) r).
  unfold HTTPAPI_intent, IntentAPI.init. rewrite Hrun, Hagain, Hself1, Hbad.
  repeat split.
  - unfold h1. rewrite length_insert, length_app. cbn. lia.
  - now apply created_lookup_new with (r := r).
  - apply lookup_insert_eq.
Qed.

(** The identifier alice, without at sign and domain. *)
Lemma intent_of_malformed_caches_context_witness :
  exists h1,
    HTTPAPI_intent 0 "alice" sample_root = Some (Raise (ValueError "invalid MXID"), h1) /\
    length h1 = 2.
Proof.
  destruct (intent_of_malformed_caches_context sample_root 0 _ "alice" eq_refl eq_refl eq_refl)
    as (h1 & r1 & Hrun & Hlen & _).
  exists h1. split; [exact Hrun | exact Hlen].
Defined.

(** X17: two different users never share a context: in a heap built by the
    constructors, the objects [HTTPAPI.user] returns for two different
    identifiers are different objects. *)
Theorem users_get_distinct_contexts (h h1 h2 : heap) (self c1 c2 : loc) (r : HTTPAPI.t)
    (u1 u2 : string) :
  heap_wf h ->
  h !! self = Some (Root r) ->
  HTTPAPI_user self u1 h = Some (Return c1, h1) ->
  HTTPAPI_user self u2 h1 = Some (Return c2, h2) ->
  u1 <> u2 ->
  c1 <> c2.
Proof.
  intros Hwf Hself Hrun1 Hrun2 Hne Heq.
  pose proof (heap_wf_user h h1 self c1 r u1 Hwf Hself Hrun1) as Hwf1.
  destruct (user_root_after h h1 self c1 r u1 Hself Hrun1)
    as (r1 & Hself1 & Hc1 & _).
  pose proof (heap_wf_user h1 h2 self c2 r1 u2 Hwf1 Hself1 Hrun2) as [_ Hchildren].
  destruct (user_root_after h1 h2 self c2 r1 u2 Hself1 Hrun2)
    as (r2 & Hself2 & Hc2 & Hsub & _).
  pose proof (lookup_weaken _ _ _ _ Hc1 Hsub) as Hc1'.
  destruct (Hchildren self r2 u1 c1 Hself2 Hc1') as (ca & Hca & _ & Hia).
  destruct (Hchildren self r2 u2 c2 Hself2 Hc2) as (cb & Hcb & _ & Hib).
  subst c2. congruence.
Qed.

(** alice and bob on the sample HTTPAPI. *)
Lemma users_get_distinct_contexts_witness :
  exists c1 c2 h1,
    HTTPAPI_user 0 "@alice:example.org" sample_root = Some (Return c1, h1) /\
    HTTPAPI_user 0 "@bob:example.org" h1 = Some (Return c2, sample_heap) /\
    c1 <> c2.
Proof.
  exists 1, 2, (heap_after_user 0 "@alice:example.org" sample_root).
  split; [reflexivity | split; [reflexivity |]].
  eapply users_get_distinct_contexts with
    (h := sample_root) (h1 := heap_after_user 0 "@alice:example.org" sample_root)
    (h2 := sample_heap) (self := 0)
    (u1 := "@alice:example.org") (u2 := "@bob:example.org").
  - apply heap_wf_init, heap_wf_nil.
  - reflexivity.
  - reflexivity.
  - reflexivity.
  - discriminate.
Defined.

Lemma rooted_is_root (h : heap) (l rl : loc) :
  rooted h l rl -> exists r, h !! rl = Some (Root r).
Proof. induction 1 as [l r Hl | l c rl Hl _ IH]; [now exists r | exact IH]. Qed.

Lemma rooted_unique (h : heap) (l rl rl' : loc) :
  rooted h l rl -> rooted h l rl' -> rl = rl'.
Proof.
  intros H. revert rl'. induction H as [l r Hl | l c rl Hl _ IH]; intros rl' H'.
  - inversion H'; subst; [reflexivity | congruence].
  - inversion H' as [l0 r0 Hl0 | l0 c0 rl0 Hl0 Hup]; subst; [congruence |].
    assert (c0 = c) as -> by congruence. now apply IH.
Qed.

(** Objects of the old heap that are kept keep their chains of parents. *)
Lemma rooted_kept (h h1 : heap) (self : loc) (r r1 : HTTPAPI.t) :
  parents_older h ->
  h !! self = Some (Root r) ->
  h1 !! self = Some (Root r1) ->
  (forall l, l <> self -> l < length h -> h1 !! l = h !! l) ->
  forall l rl, rooted h l rl -> rooted h1 l rl.
Proof.
  intros Hparent Hself Hself1 Hkept l rl Hroot.
  induction Hroot as [l r0 Hl | l c rl Hl _ IH].
  - destruct (decide (l = self)) as [-> | Hne].
    + now apply rooted_here with (r := r1).
    + apply rooted_here with (r := r0).
      rewrite Hkept; [assumption | assumption | now apply lookup_lt_Some in Hl].
  - apply rooted_parent with (c := c); [| exact IH].
    rewrite Hkept; [assumption | congruence | now apply lookup_lt_Some in Hl].
Qed.

(** X18: [HTTPAPI.user] changes nothing but the children dict, and that
    only by adding: every other object of the heap is as before, the
    HTTPAPI keeps its settings and its transaction counter, every entry of
    its children dict stays, at most one object is added, and every
    ChildHTTPAPI that was there reads the same txn_id as before. *)
Theorem user_frame (h h1 : heap) (self child : loc) (r : HTTPAPI.t) (user : string) :
  heap_wf h ->
  h !! self = Some (Root r) ->
  HTTPAPI_user self user h = Some (Return child, h1) ->
  (exists r1,
     h1 !! self = Some (Root r1) /\ same_settings r r1 /\
     HTTPAPI.children r ⊆ HTTPAPI.children r1) /\
  (forall l, l <> self -> l < length h -> h1 !! l = h !! l) /\
  length h <= length h1 <= S (length h) /\
  (forall l c, h !! l = Some (Child c) ->
     ChildHTTPAPI_txn_id h1 l = ChildHTTPAPI_txn_id h l).
Proof.
  intros Hwf Hself Hrun.
  pose proof (heap_wf_user h h1 self child r user Hwf Hself Hrun) as [Hparent1 _].
  destruct Hwf as [Hparent Hchildren].
  destruct (user_root_after h h1 self child r user Hself Hrun)
    as (r1 & Hself1 & _ & Hsub & Hsame & Hkept & Hlen).
  split; [now exists r1 |]. split; [exact Hkept |]. split; [exact Hlen |].
  intros l c Hl.
  destruct (rooted_exists h Hparent l _ Hl) as (rl & r0 & Hroot & Hrl).
  assert (Hl1 : h1 !! l = Some (Child c)).
  { rewrite Hkept; [assumption | congruence | now apply lookup_lt_Some in Hl]. }
  pose proof (rooted_kept h h1 self r r1 Hparent Hself Hself1 Hkept l rl Hroot) as Hroot1.
  rewrite (child_reads_root h l rl c r0 Hparent Hl Hroot Hrl).
  destruct (decide (rl = self)) as [-> | Hne].
  - rewrite (child_reads_root h1 l self c r1 Hparent1 Hl1 Hroot1 Hself1).
    assert (r0 = r) as -> by congruence.
    destruct Hsame as (_ & _ & _ & -> & _). reflexivity.
  - apply (child_reads_root h1 l rl c r0 Hparent1 Hl1 Hroot1).
    rewrite Hkept; [assumption | assumption | now apply lookup_lt_Some in Hrl].
Qed.

(** Making bob's context leaves alice's as it is. *)
Lemma user_frame_witness :
  sample_heap !! 1 = heap_after_user 0 "@alice:example.org" sample_root !! 1 /\
  ChildHTTPAPI_txn_id sample_heap 1 = Some 0%Z.
Proof.
  assert (Hwf : heap_wf (heap_after_user 0 "@alice:example.org" sample_root)).
  { eapply heap_wf_user with (h := sample_root) (self := 0) (user := "@alice:example.org");
      [| reflexivity | reflexivity].
    apply heap_wf_init, heap_wf_nil. }
  epose proof (user_frame (heap_after_user 0 "@alice:example.org" sample_root) sample_heap
                 0 2 _ "@bob:example.org" Hwf eq_refl eq_refl) as (_ & Hkept & _ & Htxn).
  split; [apply Hkept; [discriminate | vm_compute; lia] |].
  now rewrite (Htxn 1 _ eq_refl).
Defined.

(** X19: the constructors and the setter keep a heap one built by the
    constructors: after [HTTPAPI.__init__], [ChildHTTPAPI.__init__],
    [HTTPAPI.user] and the txn_id setter every ChildHTTPAPI still has an
    older parent, and every entry of a children dict still leads to a
    ChildHTTPAPI of that HTTPAPI made for that user. *)
Theorem heap_wf_kept (h : heap) :
  heap_wf h ->
  (forall base_url bot_mxid token identity log,
     heap_wf (fst (HTTPAPI_init base_url bot_mxid token identity log h))) /\
  (forall user parent h1 l,
     ChildHTTPAPI_init user parent h = Some (h1, l) -> heap_wf h1) /\
  (forall self r user child h1,
     h !! self = Some (Root r) ->
     HTTPAPI_user self user h = Some (Return child, h1) -> heap_wf h1) /\
  (forall l value h1,
     ChildHTTPAPI_txn_id_setter h l value = Some h1 -> heap_wf h1).
Proof.
  intros Hwf. split; [| split; [| split]].
  - intros. now apply heap_wf_init.
  - intros user parent h1 l. now apply heap_wf_child_init.
  - intros self r user child h1. now apply heap_wf_user.
  - intros l value h1. unfold ChildHTTPAPI_txn_id_setter.
    destruct (h !! l) as [[r | c] |] eqn:Hl; try discriminate.
    pose proof Hwf as [Hparent _].
    destruct (rooted_exists h Hparent l _ Hl) as (rl & r & Hroot & Hrl).
    inversion Hroot as [l0 r0 Hl0 | l0 c0 rl0 Hl0 Hup]; subst; [congruence |].
    assert (c0 = c) as -> by congruence.
    rewrite (write_rooted h value Hparent _ rl Hup r (length h) Hrl).
    + intros [= <-]. now apply heap_wf_written.
    + pose proof (Hparent l c Hl). apply lookup_lt_Some in Hl. lia.
Qed.

(** The sample heap after alice's context set the counter to 7. *)
Lemma heap_wf_kept_witness :
  exists h1, ChildHTTPAPI_txn_id_setter sample_heap 1 7%Z = Some h1 /\ heap_wf h1.
Proof.
  destruct (heap_wf_kept sample_heap sample_heap_wf) as (_ & _ & _ & Hset).
  eexists. split; [reflexivity |]. now apply (Hset 1 7%Z).
Defined.

Lemma two_servers_wf : heap_wf two_servers.
Proof.
  unfold two_servers.
  eapply heap_wf_user with (self := 1) (user := "@bob:example.com")
    (h := heap_after_user 0 "@alice:example.org"
            (fst (HTTPAPI_init "https://matrix.example.com" (Some "@bridge:example.com")
                    (Some "other") None None sample_root)));
    [| reflexivity | reflexivity].
  eapply heap_wf_user with (self := 0) (user := "@alice:example.org")
    (h := fst (HTTPAPI_init "https://matrix.example.com" (Some "@bridge:example.com")
                 (Some "other") None None sample_root));
    [| reflexivity | reflexivity].
  apply heap_wf_init, heap_wf_init, heap_wf_nil.
Qed.

(** X20: the counters of two HTTPAPI objects are independent: setting the
    txn_id of a ChildHTTPAPI leaves the txn_id read by every ChildHTTPAPI
    whose chain of parents ends at another HTTPAPI as it was. *)
Theorem other_root_keeps_txn_id (h h' : heap) (l l2 rl rl2 : loc)
    (c c2 : ChildHTTPAPI.t) (value : Z) :
  heap_wf h ->
  h !! l = Some (Child c) ->
  h !! l2 = Some (Child c2) ->
  root_of (length h) h l = Some rl ->
  root_of (length h) h l2 = Some rl2 ->
  rl <> rl2 ->
  ChildHTTPAPI_txn_id_setter h l value = Some h' ->
  ChildHTTPAPI_txn_id h' l2 = ChildHTTPAPI_txn_id h l2.
Proof.
  intros [Hparent _] Hl Hl2 Hroot Hroot2 Hne Hset.
  apply rooted_root_of in Hroot, Hroot2.
  destruct (rooted_is_root h l rl Hroot) as [r Hrl].
  destruct (rooted_is_root h l2 rl2 Hroot2) as [r2 Hrl2].
  unfold ChildHTTPAPI_txn_id_setter in Hset. rewrite Hl in Hset.
  inversion Hroot as [l0 r0 Hl0 | l0 c0 rl0 Hl0 Hup]; subst; [congruence |].
  assert (c0 = c) as -> by congruence.
  rewrite (write_rooted h value Hparent _ rl Hup r (length h) Hrl) in Hset.
  2: { pose proof (Hparent l c Hl). apply lookup_lt_Some in Hl. lia. }
  injection Hset as <-.
  rewrite (child_reads_root h l2 rl2 c2 r2 Hparent Hl2 Hroot2 Hrl2).
  apply child_reads_root with (rl := rl2) (c := c2).
  - now apply written_parents_older with (r := r).
  - now apply (written_child h rl l2 r _ c2 Hrl).
  - now apply written_rooted with (r := r).
  - now rewrite list_lookup_insert_ne.
Qed.

(** alice's context on the first server writes 7; bob's context on the
    second server still reads 0. *)
Lemma other_root_keeps_txn_id_witness :
  exists h',
    ChildHTTPAPI_txn_id_setter two_servers 2 7%Z = Some h' /\
    ChildHTTPAPI_txn_id h' 2 = Some 7%Z /\
    ChildHTTPAPI_txn_id h' 3 = Some 0%Z.
Proof.
  eexists. split; [reflexivity | split; [reflexivity |]].
  epose proof (other_root_keeps_txn_id two_servers _ 2 3 0 1 _ _ 7%Z two_servers_wf
                 eq_refl eq_refl eq_refl eq_refl _ eq_refl) as Hkeeps.
  exact Hkeeps.
  Unshelve. discriminate.
Defined.

(** ** Making intents *)

(** X21: [IntentAPI.user] works one level deep.  On an intent with a bot it
    raises ValueError and leaves the heap alone.  When it returns an intent,
    the receiver had no bot, the new intent has the receiver's client as
    its bot, the identifier as its mxid and a context recorded under that
    identifier as its client, and calling [user] on the new intent
    raises. *)
Theorem intent_user_one_level (self i : IntentAPI.t) (user : string) (h h1 : heap) :
  (forall b, IntentAPI.bot self = Some b ->
     IntentAPI_user self user h =
       Some (Raise (ValueError "IntentAPI#user() is only available for base intent objects."),
             h)) /\
  (IntentAPI_user self user h = Some (Return i, h1) ->
   IntentAPI.bot self = None /\
   IntentAPI.bot i = Some (IntentAPI.client self) /\
   IntentAPI.mxid i = user /\
   (exists r1, h1 !! IntentAPI.client self = Some (Root r1) /\
               HTTPAPI.children r1 !! user = Some (IntentAPI.client i)) /\
   forall user2 h2,
     IntentAPI_user i user2 h2 =
       Some (Raise (ValueError "IntentAPI#user() is only available for base intent objects."),
             h2)).
Proof.
  unfold IntentAPI_user. split.
  - intros b ->. reflexivity.
  - destruct (IntentAPI.bot self) as [b|] eqn:Hbot; cbn [truthy negb]; [discriminate |].
    unfold HTTPAPI_intent.
    destruct (h !! IntentAPI.client self) as [[r | c] |] eqn:Hself.
    + destruct (user_returns h _ r user Hself) as (child & h' & Hrun). rewrite Hrun.
      destruct (user_root_after h h' _ child r user Hself Hrun)
        as (r1 & Hself1 & Hchild & _).
      rewrite Hself1. intros [= Hinit <-].
      destruct (init_fresh _ _ _ _ _ Hinit) as (Hc & Hb & Hm & _).
      split; [reflexivity |]. split; [exact Hb |]. split; [exact Hm |].
      split; [exists r1; now rewrite Hc |].
      intros user2 h2. now rewrite Hb.
    + unfold HTTPAPI_user. rewrite Hself. discriminate.
    + unfold HTTPAPI_user. rewrite Hself. discriminate.
Qed.

(** X22: [HTTPAPI.bot_intent] returns an intent exactly when the bot_mxid of
    the HTTPAPI holds the pattern; without a bot_mxid it raises the
    TypeError of the interpreter, whatever its text, and with another one
    ValueError.  The intent has no bot and the HTTPAPI itself as its
    client, so that [IntentAPI.user] on it is [HTTPAPI.intent] of that
    HTTPAPI. *)
Theorem bot_intent_result (type_error : string) (h : heap) (self : loc) (r : HTTPAPI.t) :
  h !! self = Some (Root r) ->
  match HTTPAPI.bot_mxid r with
  | None => HTTPAPI_bot_intent type_error self h = Some (Raise (TypeError type_error))
  | Some mxid =>
      match Regex.search mxid_regex mxid with
      | None =>
          HTTPAPI_bot_intent type_error self h = Some (Raise (ValueError "invalid MXID"))
      | Some _ =>
          exists i,
            HTTPAPI_bot_intent type_error self h = Some (Return i) /\
            IntentAPI.bot i = None /\ IntentAPI.client i = self /\
            IntentAPI.mxid i = mxid /\ IntentAPI.registered i = false /\
            forall user h', IntentAPI_user i user h' = HTTPAPI_intent self user h'
      end
  end.
Proof.
  intros Hself. unfold HTTPAPI_bot_intent. rewrite Hself.
  destruct (HTTPAPI.bot_mxid r) as [mxid|]; [| reflexivity].
  unfold IntentAPI.init. destruct (Regex.search mxid_regex mxid); [| reflexivity].
  eexists. split; [reflexivity |]. now repeat split.
Qed.

(** The bot of the sample HTTPAPI, whatever the interpreter's text. *)
Lemma bot_intent_result_witness :
  exists i,
    HTTPAPI_bot_intent EmptyString 0 sample_root = Some (Return i) /\
    IntentAPI.bot i = None /\
    IntentAPI_user i "@alice:example.org" sample_root =
      HTTPAPI_intent 0 "@alice:example.org" sample_root.
Proof.
  pose proof (bot_intent_result EmptyString sample_root 0 _ eq_refl) as Hbot.
  cbn in Hbot. destruct Hbot as (i & Hi & Hnone & _ & _ & _ & Huser).
  exists i. split; [exact Hi | split; [exact Hnone | apply Huser]].
Defined.

(** The bot's intent makes alice's intent, which cannot make another. *)
Lemma intent_user_one_level_witness :
  exists i h1,
    IntentAPI_user bridge_bot "@alice:example.org" sample_root = Some (Return i, h1) /\
    IntentAPI.bot i = Some 0 /\
    IntentAPI_user i "@bob:example.org" h1 =
      Some (Raise (ValueError "IntentAPI#user() is only available for base intent objects."),
            h1).
Proof.
  destruct (IntentAPI_user bridge_bot "@alice:example.org" sample_root)
    as [[[i|e] h1]|] eqn:Hrun; try (vm_compute in Hrun; discriminate).
  exists i, h1.
  destruct (proj2 (intent_user_one_level bridge_bot i "@alice:example.org" sample_root h1)
              Hrun) as (_ & Hbot & _ & _ & Hraises).
  split; [reflexivity | split; [exact Hbot | apply Hraises]].
Defined.

(** ** Requests of a connection object *)

Lemma send_returns (o : object) (method path : string) (content : option json)
    (query_params : option (gmap string json)) (headers : gmap string string)
    (args : send_args) :
  HTTPAPI_send o method path content query_params headers = Return args ->
  args = {| send_method := method; send_path := path; send_content := content;
            send_query_params := <[ "user_id" := obj_identity o ]> (default empty query_params);
            send_headers := headers |}.
Proof.
  unfold HTTPAPI_send. destruct (obj_log o); [| discriminate]. intros [= <-].
  destruct query_params as [q|]; [| reflexivity].
  cbn [default]. now destruct (decide (q = empty)) as [-> |].
Qed.

(** X23: every request of the context that [HTTPAPI.user] returns for an
    identifier carries that identifier as the query parameter user_id, also
    when the caller passed a user_id of its own; the other query parameters,
    the method, the path, the content and the headers go through as they
    are. *)
Theorem send_carries_identity (h h1 : heap) (self child : loc) (r : HTTPAPI.t)
    (user : string) :
  heap_wf h ->
  h !! self = Some (Root r) ->
  HTTPAPI_user self user h = Some (Return child, h1) ->
  exists c,
    h1 !! child = Some (Child c) /\
    forall method path content query_params headers args,
      HTTPAPI_send (Child c) method path content query_params headers = Return args ->
      send_query_params args !! "user_id" = Some (JStr user) /\
      (forall k, k <> "user_id" ->
         send_query_params args !! k = default empty query_params !! k) /\
      send_method args = method /\ send_path args = path /\
      send_content args = content /\ send_headers args = headers.
Proof.
  intros Hwf Hself Hrun.
  pose proof (heap_wf_user h h1 self child r user Hwf Hself Hrun) as [_ Hchildren].
  destruct (user_root_after h h1 self child r user Hself Hrun)
    as (r1 & Hself1 & Hchild & _).
  destruct (Hchildren self r1 user child Hself1 Hchild) as (c & Hc & _ & Hid).
  exists c. split; [exact Hc |].
  intros method path content query_params headers args Hsend.
  apply send_returns in Hsend as ->. cbn [send_query_params send_method send_path
    send_content send_headers obj_identity]. rewrite Hid.
  repeat split.
  - apply lookup_insert_eq.
  - intros k Hk. now rewrite lookup_insert_ne.
Qed.

(** alice's context, with a logger on the HTTPAPI, asked to send with a
    user_id of the caller's. *)
Lemma send_carries_identity_witness :
  let h := fst (HTTPAPI_init "https://matrix.example.org" (Some "@bridge:example.org")
                  (Some "secret") None (Some 9) []) in
  exists c h1 args,
    HTTPAPI_user 0 "@alice:example.org" h = Some (Return 1, h1) /\
    h1 !! 1 = Some (Child c) /\
    HTTPAPI_send (Child c) "GET" "/sync" None
      (Some {[ "user_id" := JStr "@mallory:example.org" ]}) empty = Return args /\
    send_query_params args !! "user_id" = Some (JStr "@alice:example.org").
Proof.
  cbv zeta.
  epose proof (send_carries_identity
                 (fst (HTTPAPI_init "https://matrix.example.org" (Some "@bridge:example.org")
                         (Some "secret") None (Some 9) []))
                 _ 0 1 _ "@alice:example.org"
                 (heap_wf_init _ _ _ _ _ _ heap_wf_nil) eq_refl eq_refl)
    as (c & Hc & Hsend).
  destruct (HTTPAPI_send (Child c) "GET" "/sync" None
              (Some {[ "user_id" := JStr "@mallory:example.org" ]}) empty)
    as [args|e] eqn:Hs.
  - exists c. eexists _, args. split; [reflexivity | split; [exact Hc |]].
    split; [exact Hs |]. exact (proj1 (Hsend _ _ _ _ _ _ Hs)).
  - exfalso. vm_compute in Hc. injection Hc as <-. vm_compute in Hs. discriminate Hs.
Defined.

(** X24: an HTTPAPI constructed without a logger cannot send: [_send] and
    [create_room] raise AttributeError on it, and so they do on every
    context it derives, which takes over the missing logger. *)
Theorem send_needs_logger (h0 h1 : heap) (base_url : string)
    (bot_mxid token identity : option string) (user : string) (child : loc) :
  let h := fst (HTTPAPI_init base_url bot_mxid token identity None h0) in
  let self := snd (HTTPAPI_init base_url bot_mxid token identity None h0) in
  let no_logger := Raise (AttributeError "'NoneType' object has no attribute 'debug'") in
  HTTPAPI_user self user h = Some (Return child, h1) ->
  exists r c,
    h !! self = Some (Root r) /\ h1 !! child = Some (Child c) /\
    forall o, o = Root r \/ o = Child c ->
      (forall method path content query_params headers,
         HTTPAPI_send o method path content query_params headers = no_logger) /\
      (forall alias is_public name topic is_direct invitees,
         HTTPAPI_create_room o alias is_public name topic is_direct invitees = no_logger).
Proof.
  cbv zeta. cbn [HTTPAPI_init fst snd].
  set (r := {| HTTPAPI.base_url := base_url; HTTPAPI.token := token;
               HTTPAPI.identity := identity; HTTPAPI.txn_id := 0;
               HTTPAPI.bot_mxid := bot_mxid; HTTPAPI.log := None;
               HTTPAPI.validate_cert := true; HTTPAPI.children := empty |}).
  assert (Hself : (h0 ++ [Root r]) !! length h0 = Some (Root r))
    by (now apply list_lookup_middle).
  intros Hrun.
  rewrite (user_created _ _ r user Hself (lookup_empty _)) in Hrun.
  injection Hrun as <- <-.
  exists r, (derived user (length h0) r). split; [exact Hself |]. split.
  - now apply created_lookup_new with (r := r).
  - intros o [-> | ->]; split; reflexivity.
Qed.

(** The HTTPAPI with the defaults of its constructor. *)
Lemma send_needs_logger_witness :
  exists c,
    sample_heap !! 1 = Some (Child c) /\
    HTTPAPI_create_room (Child c) (Some "lobby") true None None false [] =
      Raise (AttributeError "'NoneType' object has no attribute 'debug'").
Proof.
  destruct (send_needs_logger [] (heap_after_user 0 "@alice:example.org" sample_root)
              "https://matrix.example.org" (Some "@bridge:example.org") (Some "secret") None
              "@alice:example.org" 1 eq_refl) as (r & c & _ & Hc & Hraises).
  exists c. split.
  - vm_compute in Hc. injection Hc as <-. reflexivity.
  - apply (Hraises (Child c)). now right.
Defined.

Lemma given_present (s : option string) : JStr <$> given s = present s.
Proof. now destruct s as [[|c s]|]. Qed.

(** X25: on a context with a logger, [create_room] posts to /createRoom
    with the context's identity as the only query parameter and no headers.
    The body always has the visibility, public or private, and is_direct;
    it has room_alias_name, name and topic exactly when the argument is
    given and not empty, and invite exactly when there are invitees; it has
    no other key, so that an argument left out is absent from the body. *)
Theorem create_room_request (o : object) (logger : loc) (alias : option string)
    (is_public : bool) (name topic : option string) (is_direct : bool)
    (invitees : list string) :
  obj_log o = Some logger ->
  exists content,
    HTTPAPI_create_room o alias is_public name topic is_direct invitees =
      Return {| send_method := "POST"; send_path := "/createRoom";
                send_content := Some (JDict content);
                send_query_params := {[ "user_id" := obj_identity o ]};
                send_headers := empty |} /\
    content !! "visibility" = Some (JStr (if is_public then "public" else "private")) /\
    content !! "is_direct" = Some (JBool is_direct) /\
    content !! "room_alias_name" = present alias /\
    content !! "name" = present name /\
    content !! "topic" = present topic /\
    content !! "invite" =
      match invitees with
      | [] => None
      | _ :: _ => Some (JList (JStr <$> invitees))
      end /\
    forall k, is_Some (content !! k) -> k ∈ create_room_keys.
Proof.
  intros Hlog. unfold HTTPAPI_create_room, HTTPAPI_send. rewrite Hlog.
  rewrite <- !given_present.
  eexists. split; [reflexivity |].
  destruct (given alias) as [a|], (given name) as [n|], (given topic) as [t|],
    invitees as [|u us];
    (repeat split; [reflexivity .. |]);
    intros k [v Hk]; unfold create_room_keys;
    repeat (apply lookup_insert_Some in Hk as [[<- _] | [_ Hk]]; [set_solver |]);
    try (rewrite lookup_empty in Hk; discriminate);
    apply lookup_singleton_Some in Hk as [<- _]; set_solver.
Qed.

(** A public room with an alias and no name, topic or invitee. *)
Lemma create_room_request_witness :
  exists content args,
    HTTPAPI_create_room (Root (HTTPAPI.mk "https://matrix.example.org" (Some "secret") None 0
                                 (Some "@bridge:example.org") (Some 9) true empty))
      (Some "lobby") true (Some EmptyString) None false [] = Return args /\
    send_content args = Some (JDict content) /\
    content !! "room_alias_name" = Some (JStr "lobby") /\
    content !! "name" = None /\
    content !! "visibility" = Some (JStr "public").
Proof.
  destruct (create_room_request
              (Root (HTTPAPI.mk "https://matrix.example.org" (Some "secret") None 0
                       (Some "@bridge:example.org") (Some 9) true empty))
              9 (Some "lobby") true (Some EmptyString) None false [] eq_refl)
    as (content & Hrun & Hvis & _ & Halias & Hname & _).
  exists content. eexists. split; [exact Hrun |].
  split; [reflexivity | split; [exact Halias | split; [exact Hname | exact Hvis]]].
Defined.

(** An identifier with a port: the local part runs to the last colon. *)
Lemma init_two_part_witness :
  exists i,
    IntentAPI.init "@alice:example.org:8448" 1 (Some 0) None = Return i /\
    IntentAPI.localpart i = "alice:example.org".
Proof.
  eexists. split.
  - apply (init_two_part "@alice:example.org:8448" "alice:example.org" "8448" 1 (Some 0) None).
    + repeat split; discriminate.
    + reflexivity.
  - reflexivity.
Defined.
